(** * Rollback manager: checkpoint store, restore, export and import

    A shallow embedding of [src/rollback/rollback_manager.py]
    ([RollbackPoint] and [RollbackManager]) together with the parts of the
    Python runtime the manager relies on: object references and [deepcopy],
    [json.dump] / [json.load], and [datetime].

    Layout: the definitions come first (Python values, JSON, datetime, the
    object heap and the file system, then the two classes), the theorems
    follow. *)

From Stdlib Require Import ZArith String Ascii List Bool Lia Sorted.
From Stdlib Require Import DecimalString DecimalNat DecimalZ.
From stdpp Require Import base option list sorting gmap strings.

Local Open Scope string_scope.
Local Open Scope list_scope.

(** ** Python values

    The universe of values a caller can hand to the manager as state,
    metadata, description or identifier.  A value is a tree: containers hold
    their items directly.  Floats are left out, and so are cyclic
    containers.  [VObj cls repr] stands for any object outside the JSON
    types (a set, a datetime, a file handle, ...): [cls] is its type name
    and [repr] what [str(obj)] returns. *)

Unset Elimination Schemes.

Inductive pyval : Type :=
| VNone
| VBool (b : bool)
| VInt (z : Z)
| VStr (s : string)
| VList (items : list pyval)
| VTuple (items : list pyval)
| VDict (entries : list (pyval * pyval))
| VObj (cls repr : string).

Set Elimination Schemes.

#[global] Instance pyval_inhabited : Inhabited pyval := populate VNone.

(** [type(v).__name__], used in the messages of [json]. *)
Definition type_name (v : pyval) : string :=
  match v with
  | VNone => "NoneType"
  | VBool _ => "bool"
  | VInt _ => "int"
  | VStr _ => "str"
  | VList _ => "list"
  | VTuple _ => "tuple"
  | VDict _ => "dict"
  | VObj cls _ => cls
  end.

(** Python's [==].  [bool] is a subtype of [int] ([True == 1]); lists and
    tuples compare item by item and never equal each other; dicts compare
    without regard to order.  Objects outside the JSON types are compared by
    type and printed form. *)
Fixpoint py_eqb (a b : pyval) {struct a} : bool :=
  match a, b with
  | VNone, VNone => true
  | VBool x, VBool y => Bool.eqb x y
  | VBool x, VInt z => Z.eqb (Z.b2z x) z
  | VInt z, VBool x => Z.eqb z (Z.b2z x)
  | VInt x, VInt y => Z.eqb x y
  | VStr s, VStr t => String.eqb s t
  | VList xs, VList ys =>
      (fix items (xs ys : list pyval) {struct xs} : bool :=
         match xs, ys with
         | [], [] => true
         | x :: xs', y :: ys' => py_eqb x y && items xs' ys'
         | _, _ => false
         end) xs ys
  | VTuple xs, VTuple ys =>
      (fix items (xs ys : list pyval) {struct xs} : bool :=
         match xs, ys with
         | [], [] => true
         | x :: xs', y :: ys' => py_eqb x y && items xs' ys'
         | _, _ => false
         end) xs ys
  | VDict d, VDict e =>
      Nat.eqb (length d) (length e) &&
      (fix each (d : list (pyval * pyval)) {struct d} : bool :=
         match d with
         | [] => true
         | (k, v) :: d' =>
             (fix found (e : list (pyval * pyval)) {struct e} : bool :=
                match e with
                | [] => false
                | (k', v') :: e' => (py_eqb k k' && py_eqb v v') || found e'
                end) e
             && each d'
         end) d
  | VObj c r, VObj c' r' => String.eqb c c' && String.eqb r r'
  | _, _ => false
  end.

(** Truth value of an object, as tested by [if], [not] and [or]; an
    object outside the JSON types is taken to be true. *)
Definition truthy (v : pyval) : bool :=
  match v with
  | VNone => false
  | VBool b => b
  | VInt z => negb (Z.eqb z 0)
  | VStr s => negb (String.eqb s "")
  | VList l | VTuple l => negb (Nat.eqb (length l) 0)
  | VDict d => negb (Nat.eqb (length d) 0)
  | VObj _ _ => true
  end.

(** [d[k] = v] on a dict kept as an association list in insertion order:
    an existing key keeps its position and takes the new value. *)
Fixpoint dict_set (d : list (pyval * pyval)) (k v : pyval) : list (pyval * pyval) :=
  match d with
  | [] => [(k, v)]
  | (k', v') :: d' =>
      if py_eqb k' k then (k', v) :: d' else (k', v') :: dict_set d' k v
  end.

(** [d.get(k)], [None] when the key is absent. *)
Fixpoint dict_get (d : list (pyval * pyval)) (k : pyval) : option pyval :=
  match d with
  | [] => None
  | (k', v') :: d' => if py_eqb k' k then Some v' else dict_get d' k
  end.

(** [k in d]. *)
Definition dict_has (d : list (pyval * pyval)) (k : pyval) : bool :=
  match dict_get d k with Some _ => true | None => false end.

(** ** Exceptions and results *)

Inductive exn : Type :=
| TypeError (msg : string)
| ValueError (msg : string)
| KeyError (msg : string)
| AttributeError (msg : string)
| OSError (msg : string)
| JSONDecodeError.

Inductive result (A : Type) : Type :=
| Ok (a : A)
| Raise (e : exn).
Arguments Ok {A} a.
Arguments Raise {A} e.

Definition rbind {A B} (r : result A) (k : A -> result B) : result B :=
  match r with
  | Ok a => k a
  | Raise e => Raise e
  end.

(** The call returned normally. *)
Definition is_ok {A} (r : result A) : bool :=
  match r with Ok _ => true | Raise _ => false end.

Notation "x <~ r ;; k" := (rbind r (fun x => k))
  (at level 100, r at next level, right associativity).

Section result_mapM.
Context {A B : Type}.
Variable f : A -> result B.

(** Left-to-right traversal that stops at the first exception. *)
Fixpoint result_mapM (l : list A) : result (list B) :=
  match l with
  | [] => Ok []
  | x :: l' => y <~ f x ;; ys <~ result_mapM l' ;; Ok (y :: ys)
  end.
End result_mapM.


(** ** Decimal printing *)

(** [str(n)] for a natural number. *)
Definition string_of_nat (n : nat) : string :=
  NilEmpty.string_of_uint (Nat.to_uint n).

(** [int.__repr__]. *)
Definition string_of_Z (z : Z) : string :=
  NilZero.string_of_int (Z.to_int z).

(** ** JSON documents and the [json] module *)

Unset Elimination Schemes.

Inductive json : Type :=
| JNull
| JBool (b : bool)
| JNum (z : Z)
| JStr (s : string)
| JArr (items : list json)
| JObj (members : list (string * json)).

Set Elimination Schemes.

(** How the encoder writes a dict key: [str] as it is, [int], [bool] and
    [None] in their JSON spelling; any other key type is a [TypeError]
    ([skipkeys] is off), whatever [default] is. *)
Definition json_key (k : pyval) : result string :=
  match k with
  | VStr s => Ok s
  | VBool true => Ok "true"
  | VBool false => Ok "false"
  | VNone => Ok "null"
  | VInt z => Ok (string_of_Z z)
  | _ => Raise (TypeError ("keys must be str, int, float, bool or None, not "
                           +:+ type_name k))
  end.

(** The encoder of [json.dumps(v)] ([default_str = false]) and of
    [json.dump(v, f, default=str)] ([default_str = true]).  Lists and
    tuples both become arrays.  A value outside the JSON types goes to
    [default]: absent, that is a [TypeError]; with [default=str] the value
    is replaced by [str(value)]. *)
Fixpoint json_encode (default_str : bool) (v : pyval) {struct v} : result json :=
  match v with
  | VNone => Ok JNull
  | VBool b => Ok (JBool b)
  | VInt z => Ok (JNum z)
  | VStr s => Ok (JStr s)
  | VList l =>
      js <~ result_mapM (json_encode default_str) l ;; Ok (JArr js)
  | VTuple l =>
      js <~ result_mapM (json_encode default_str) l ;; Ok (JArr js)
  | VDict d =>
      ms <~ result_mapM
              (fun kv => let '(k, x) := kv in
                         s <~ json_key k ;;
                         j <~ json_encode default_str x ;;
                         Ok (s, j)) d ;;
      Ok (JObj ms)
  | VObj cls repr =>
      if default_str then Ok (JStr repr)
      else Raise (TypeError ("Object of type " +:+ cls
                             +:+ " is not JSON serializable"))
  end.

(** The decoder of [json.load]: an object becomes a dict built by
    successive assignments, so a repeated member name keeps its first
    position and its last value. *)
Fixpoint json_decode (j : json) {struct j} : pyval :=
  match j with
  | JNull => VNone
  | JBool b => VBool b
  | JNum z => VInt z
  | JStr s => VStr s
  | JArr l => VList (map json_decode l)
  | JObj m =>
      VDict (fold_left
               (fun acc kx => let '(k, x) := kx in
                              dict_set acc (VStr k) (json_decode x))
               m [])
  end.

(** ** [datetime]

    Naive datetimes, as [datetime.now()] returns them: seven calendar
    fields.  Comparison is field by field, most significant first. *)

Module datetime.

Local Open Scope Z_scope.

Record t : Type := mk {
  year : Z;
  month : Z;
  day : Z;
  hour : Z;
  minute : Z;
  second : Z;
  microsecond : Z
}.

Definition fields (d : t) : list Z :=
  [year d; month d; day d; hour d; minute d; second d; microsecond d].

Fixpoint lex_compare (a b : list Z) : comparison :=
  match a, b with
  | [], [] => Eq
  | [], _ :: _ => Lt
  | _ :: _, [] => Gt
  | x :: a', y :: b' =>
      match Z.compare x y with
      | Eq => lex_compare a' b'
      | c => c
      end
  end.

Definition compare (a b : t) : comparison := lex_compare (fields a) (fields b).

(** [a < b] *)
Definition ltb (a b : t) : bool :=
  match compare a b with Lt => true | _ => false end.

(** [a <= b] *)
Definition leb (a b : t) : bool := negb (ltb b a).

Definition is_leap (y : Z) : bool :=
  (y mod 4 =? 0) && (negb (y mod 100 =? 0) || (y mod 400 =? 0)).

Definition days_in_month (y m : Z) : Z :=
  if m =? 2 then (if is_leap y then 29 else 28)
  else if (m =? 4) || (m =? 6) || (m =? 9) || (m =? 11) then 30
  else 31.

(** The range checks of the [datetime] constructor. *)
Definition valid (d : t) : bool :=
  (1 <=? year d) && (year d <=? 9999) &&
  (1 <=? month d) && (month d <=? 12) &&
  (1 <=? day d) && (day d <=? days_in_month (year d) (month d)) &&
  (0 <=? hour d) && (hour d <? 24) &&
  (0 <=? minute d) && (minute d <? 60) &&
  (0 <=? second d) && (second d <? 60) &&
  (0 <=? microsecond d) && (microsecond d <? 1000000).

Definition digit (d : Z) : ascii := ascii_of_N (Z.to_N (48 + d)).

Definition digit_value (c : ascii) : option Z :=
  let n := Z.of_N (N_of_ascii c) in
  if (48 <=? n) && (n <=? 57) then Some (n - 48) else None.

(** [n] in exactly [width] decimal digits, padded with zeros. *)
Fixpoint zero_padded (width : nat) (n : Z) : list ascii :=
  match width with
  | O => []
  | S w => digit ((n / 10 ^ Z.of_nat w) mod 10) :: zero_padded w n
  end.

(** [strftime('%Y%m%d_%H%M%S')], the stamp used in checkpoint ids. *)
Definition strftime_Ymd_HMS (d : t) : string :=
  string_of_list_ascii
    (zero_padded 4 (year d) ++ zero_padded 2 (month d) ++ zero_padded 2 (day d)
     ++ ["_"%char]
     ++ zero_padded 2 (hour d) ++ zero_padded 2 (minute d)
     ++ zero_padded 2 (second d)).

(** [isoformat()]: [YYYY-MM-DDTHH:MM:SS], followed by [.ffffff] when the
    microsecond field is not zero. *)
Definition isoformat (d : t) : string :=
  string_of_list_ascii
    (zero_padded 4 (year d) ++ "-"%char :: zero_padded 2 (month d)
     ++ "-"%char :: zero_padded 2 (day d)
     ++ "T"%char :: zero_padded 2 (hour d)
     ++ ":"%char :: zero_padded 2 (minute d)
     ++ ":"%char :: zero_padded 2 (second d)
     ++ (if microsecond d =? 0 then []
         else "."%char :: zero_padded 6 (microsecond d))).

(** Reads exactly [width] decimal digits. *)
Fixpoint read_number (acc : Z) (width : nat) (l : list ascii)
  : option (Z * list ascii) :=
  match width with
  | O => Some (acc, l)
  | S w =>
      match l with
      | [] => None
      | c :: l' => d ← digit_value c; read_number (10 * acc + d) w l'
      end
  end.

Definition expect (c : ascii) (l : list ascii) : option (list ascii) :=
  match l with
  | c' :: l' => if Ascii.eqb c c' then Some l' else None
  | [] => None
  end.

(** [datetime.fromisoformat] on the two shapes [isoformat] produces for a
    naive datetime, with the constructor's range checks; [None] stands
    for [ValueError].  (The library reads further ISO 8601 spellings;
    they do not occur in files written by [export_checkpoint].) *)
Definition fromisoformat (s : string) : option t :=
  '(y, l) ← read_number 0 4 (list_ascii_of_string s);
  l ← expect "-"%char l;
  '(mo, l) ← read_number 0 2 l;
  l ← expect "-"%char l;
  '(d, l) ← read_number 0 2 l;
  l ← expect "T"%char l;
  '(h, l) ← read_number 0 2 l;
  l ← expect ":"%char l;
  '(mi, l) ← read_number 0 2 l;
  l ← expect ":"%char l;
  '(sec, l) ← read_number 0 2 l;
  us ← match l with
       | [] => Some 0
       | _ => l ← expect "."%char l;
              '(u, l) ← read_number 0 6 l;
              match l with [] => Some u | _ => None end
       end;
  let r := mk y mo d h mi sec us in
  if valid r then Some r else None.

End datetime.

(** ** Builtins over sequences keyed by a datetime *)

Section py_builtins.
Context {A : Type}.
Variable key : A -> datetime.t.

(** [max(l, key=key)]: the first of the maximal items; [None] stands for
    the empty sequence. *)
Definition py_max (l : list A) : option A :=
  match l with
  | [] => None
  | x :: l' =>
      Some (fold_left
              (fun best y => if datetime.ltb (key best) (key y) then y else best)
              l' x)
  end.

(** [min(l, key=key)]: the first of the minimal items. *)
Definition py_min (l : list A) : option A :=
  match l with
  | [] => None
  | x :: l' =>
      Some (fold_left
              (fun best y => if datetime.ltb (key y) (key best) then y else best)
              l' x)
  end.

Fixpoint insert_desc (x : A) (l : list A) : list A :=
  match l with
  | [] => [x]
  | y :: l' =>
      if datetime.ltb (key x) (key y) then y :: insert_desc x l'
      else x :: y :: l'
  end.

(** [sorted(l, key=key, reverse=True)]: descending keys; the sort is
    stable, so items with equal keys keep their original order. *)
Definition py_sorted_reverse (l : list A) : list A :=
  foldr insert_desc [] l.


(** Ascending keys: every item is no later than the items after it. *)
Definition ascending (l : list A) : Prop :=
  StronglySorted (fun a b => datetime.leb (key a) (key b) = true) l.

(** [max] seen from the right: the first item wins ties. *)
Fixpoint first_max (l : list A) : option A :=
  match l with
  | [] => None
  | x :: l' =>
      match first_max l' with
      | None => Some x
      | Some m => if datetime.ltb (key x) (key m) then Some m else Some x
      end
  end.
End py_builtins.

(** ** Objects, references and files

    Mutable objects live in a heap and are held by reference.  A cell holds
    the whole value of the object, its nested containers included (sharing
    below the top level is not followed); writing a cell is an in-place
    mutation, seen through every reference to it. *)

Definition addr : Type := nat.

(** What a file holds, as [json.load] sees it: a JSON document, or bytes it
    rejects (among them the prefix left by a [json.dump] that raised). *)
Inductive file_content : Type :=
| FileJson (doc : json)
| FileOther.

Record world : Type := mkWorld {
  heap : list pyval;
  files : gmap string file_content;
  unwritable : gset string
}.

(** The object behind a reference ([None] behind a reference to nothing,
    which a running program never holds: see [refs_valid]). *)
Definition deref (w : world) (a : addr) : pyval := heap w !!! a.

(** A new object. *)
Definition alloc (w : world) (v : pyval) : addr * world :=
  (length (heap w),
   mkWorld (heap w ++ [v]) (files w) (unwritable w)).

(** [copy.deepcopy]: a new object with an equal value, sharing nothing
    with the original. *)
Definition deepcopy (w : world) (a : addr) : addr * world :=
  alloc w (deref w a).

(** In-place mutation of the object at [a], by whoever holds a reference. *)
Definition mutate (w : world) (a : addr) (v : pyval) : world :=
  mkWorld (<[a := v]> (heap w)) (files w) (unwritable w).

(** [open(path, 'w')] followed by writing [c]. *)
Definition write_file (w : world) (path : string) (c : file_content) : world :=
  mkWorld (heap w) (<[path := c]> (files w)) (unwritable w).

(** [json.load(open(path))]. *)
Definition json_load (w : world) (path : string) : result pyval :=
  match files w !! path with
  | None => Raise (OSError "No such file or directory")
  | Some FileOther => Raise JSONDecodeError
  | Some (FileJson doc) => Ok (json_decode doc)
  end.

(** ** [RollbackPoint] *)

Module RollbackPoint.

(** The dataclass.  [state_snapshot] and [metadata] are references to
    mutable objects; [id] and [description] are whatever value was
    given (the annotations are not checked). *)
Record t : Type := mk {
  id : pyval;
  timestamp : datetime.t;
  description : pyval;
  state_snapshot : addr;
  metadata : addr
}.

(** The five-entry dict [to_dict] returns.  Its ["state_snapshot"] and
    ["metadata"] entries hold the objects of the RollbackPoint
    themselves, not copies. *)
Record dict : Type := mkDict {
  d_id : pyval;
  d_timestamp : string;
  d_description : pyval;
  d_state_snapshot : addr;
  d_metadata : addr
}.

Definition to_dict (self : t) : dict :=
  mkDict (id self)
         (datetime.isoformat (timestamp self))
         (description self)
         (state_snapshot self)
         (metadata self).

(** The value of such a dict, with its references followed: what
    [json.dump] traverses. *)
Definition dict_value (w : world) (d : dict) : pyval :=
  VDict [ (VStr "id", d_id d);
          (VStr "timestamp", VStr (d_timestamp d));
          (VStr "description", d_description d);
          (VStr "state_snapshot", deref w (d_state_snapshot d));
          (VStr "metadata", deref w (d_metadata d)) ].

End RollbackPoint.

(** ** [RollbackManager] *)

Module RollbackManager.

(** The configuration dict, reduced to the three keys [__init__] reads. *)
Record config : Type := mkConfig {
  cfg_enabled : option bool;
  cfg_max_history : option Z;
  cfg_auto_cleanup : option bool
}.

Record t : Type := mk {
  enabled : bool;
  max_history : Z;
  auto_cleanup : bool;
  rollback_points : list RollbackPoint.t;
  current_state : addr;
  rollback_count : nat;
  checkpoint_count : nat
}.

(** [__init__]: [config.get] with its defaults, an empty history, a new
    empty dict as current state, counters at zero. *)
Definition init (cfg : config) (w : world) : t * world :=
  let '(cur, w') := alloc w (VDict []) in
  (mk (default true (cfg_enabled cfg))
      (default 10%Z (cfg_max_history cfg))
      (default true (cfg_auto_cleanup cfg))
      [] cur 0 0,
   w').


(** The id built by [create_checkpoint]:
    [f"checkpoint_{count}_{now:%Y%m%d_%H%M%S}"]. *)
Definition checkpoint_id_of (count : nat) (now : datetime.t) : string :=
  "checkpoint_" +:+ string_of_nat count +:+ "_" +:+ datetime.strftime_Ymd_HMS now.

(** [create_checkpoint(description, state, metadata)].  [now_id] and
    [now_ts] are the two readings of [datetime.now()], the first for the
    id, the second for the timestamp.  Returns the id, or the empty
    string when the manager is disabled. *)
Definition create_checkpoint (self : t) (w : world)
    (now_id now_ts : datetime.t)
    (description : pyval) (state : addr) (metadata : option addr)
  : pyval * t * world :=
  if negb (enabled self) then (VStr "", self, w)
  else
    let checkpoint_id := VStr (checkpoint_id_of (checkpoint_count self) now_id) in
    let '(snapshot, w1) := deepcopy w state in
    let '(md, w2) :=
      match metadata with
      | Some m => if truthy (deref w1 m) then (m, w1) else alloc w1 (VDict [])
      | None => alloc w1 (VDict [])
      end in
    let rollback_point :=
      RollbackPoint.mk checkpoint_id now_ts description snapshot md in
    let points := rollback_points self ++ [rollback_point] in
    let '(cur, w3) := deepcopy w2 state in
    let points' :=
      if auto_cleanup self && (max_history self <? Z.of_nat (length points))%Z
      then drop 1 points
      else points in
    (checkpoint_id,
     mk (enabled self) (max_history self) (auto_cleanup self)
        points' cur (rollback_count self) (S (checkpoint_count self)),
     w3).

(** The loop [for checkpoint in self.rollback_points: if checkpoint.id ==
    checkpoint_id: ... break]: the first entry bearing the id. *)
Definition find_checkpoint (points : list RollbackPoint.t) (checkpoint_id : pyval)
  : option RollbackPoint.t :=
  List.find (fun cp => py_eqb (RollbackPoint.id cp) checkpoint_id) points.

(** [rollback_to_checkpoint(checkpoint_id)]: a reference to the restored
    state, or [None].  ([deepcopy] is taken not to raise, so the [except]
    branch is not reached; a stored state that is itself [None] would reach
    the caller as [None] as well, here it is [Some] reference to it.) *)
Definition rollback_to_checkpoint (self : t) (w : world) (checkpoint_id : pyval)
  : option addr * t * world :=
  if negb (enabled self) then (None, self, w)
  else
    match find_checkpoint (rollback_points self) checkpoint_id with
    | None => (None, self, w)
    | Some target_checkpoint =>
        let '(restored_state, w') :=
          deepcopy w (RollbackPoint.state_snapshot target_checkpoint) in
        (Some restored_state,
         mk (enabled self) (max_history self) (auto_cleanup self)
            (rollback_points self) restored_state
            (S (rollback_count self)) (checkpoint_count self),
         w')
    end.

(** [rollback_to_latest()] *)
Definition rollback_to_latest (self : t) (w : world) : option addr * t * world :=
  match py_max RollbackPoint.timestamp (rollback_points self) with
  | None => (None, self, w)
  | Some latest_checkpoint =>
      rollback_to_checkpoint self w (RollbackPoint.id latest_checkpoint)
  end.

(** [rollback_n_steps(steps)] *)
Definition rollback_n_steps (self : t) (w : world) (steps : Z)
  : option addr * t * world :=
  match rollback_points self with
  | [] => (None, self, w)
  | _ =>
      if (steps <=? 0)%Z || (Z.of_nat (length (rollback_points self)) <? steps)%Z
      then (None, self, w)
      else
        let sorted_checkpoints :=
          py_sorted_reverse RollbackPoint.timestamp (rollback_points self) in
        match sorted_checkpoints !! Z.to_nat (steps - 1) with
        | Some target_checkpoint =>
            rollback_to_checkpoint self w (RollbackPoint.id target_checkpoint)
        | None => (None, self, w)
        end
  end.

(** [get_checkpoint_history()] *)
Definition get_checkpoint_history (self : t) : list RollbackPoint.dict :=
  map RollbackPoint.to_dict
      (py_sorted_reverse RollbackPoint.timestamp (rollback_points self)).

(** [get_checkpoint(checkpoint_id)] *)
Definition get_checkpoint (self : t) (checkpoint_id : pyval)
  : option RollbackPoint.dict :=
  RollbackPoint.to_dict <$> find_checkpoint (rollback_points self) checkpoint_id.

(** Index of the first entry bearing the id. *)
Fixpoint index_of (points : list RollbackPoint.t) (checkpoint_id : pyval)
  : option nat :=
  match points with
  | [] => None
  | cp :: rest =>
      if py_eqb (RollbackPoint.id cp) checkpoint_id then Some 0
      else S <$> index_of rest checkpoint_id
  end.

(** [delete_checkpoint(checkpoint_id)] *)
Definition delete_checkpoint (self : t) (checkpoint_id : pyval) : bool * t :=
  match index_of (rollback_points self) checkpoint_id with
  | Some i =>
      (true,
       mk (enabled self) (max_history self) (auto_cleanup self)
          (delete i (rollback_points self)) (current_state self)
          (rollback_count self) (checkpoint_count self))
  | None => (false, self)
  end.

(** [clear_history()]: empties the history, then empties in place the
    object [current_state] refers to; an object with no [clear] method
    raises after the history is gone. *)
Definition clear_history (self : t) (w : world) : result unit * t * world :=
  let self' :=
    mk (enabled self) (max_history self) (auto_cleanup self)
       [] (current_state self) (rollback_count self) (checkpoint_count self) in
  match deref w (current_state self) with
  | VDict _ => (Ok tt, self', mutate w (current_state self) (VDict []))
  | VList _ => (Ok tt, self', mutate w (current_state self) (VList []))
  | v => (Raise (AttributeError (type_name v +:+ " object has no attribute clear")),
          self', w)
  end.

(** [export_checkpoint(checkpoint_id, file_path)].  [open] fails on an
    unwritable path; [json.dump(..., default=str)] writes as it encodes,
    so an encoder error leaves a truncated file behind.  Every exception
    is caught and reported as [False]. *)
Definition export_checkpoint (self : t) (w : world)
    (checkpoint_id : pyval) (file_path : string) : bool * world :=
  match get_checkpoint self checkpoint_id with
  | None => (false, w)
  | Some checkpoint_data =>
      if bool_decide (file_path ∈ unwritable w) then (false, w)
      else
        match json_encode true (RollbackPoint.dict_value w checkpoint_data) with
        | Ok doc => (true, write_file w file_path (FileJson doc))
        | Raise _ => (false, write_file w file_path FileOther)
        end
  end.

Definition required_keys : list string :=
  ["id"; "timestamp"; "description"; "state_snapshot"].

(** [checkpoint_data[key]] *)
Definition getitem (d : list (pyval * pyval)) (key : string) : result pyval :=
  match dict_get d (VStr key) with
  | Some v => Ok v
  | None => Raise (KeyError key)
  end.

(** The body of the [try] in [import_checkpoint] between [json.load] and
    the construction of the RollbackPoint: the fields of the record, or
    the exception raised.  A document that is not an object raises
    either at the membership test or at the first subscript. *)
Definition read_checkpoint (checkpoint_data : pyval)
  : result (pyval * datetime.t * pyval * pyval * pyval) :=
  match checkpoint_data with
  | VDict d =>
      if forallb (fun key => dict_has d (VStr key)) required_keys then
        i <~ getitem d "id" ;;
        ts <~ getitem d "timestamp" ;;
        t <~ match ts with
             | VStr s =>
                 match datetime.fromisoformat s with
                 | Some t => Ok t
                 | None => Raise (ValueError "Invalid isoformat string")
                 end
             | _ => Raise (TypeError "fromisoformat: argument must be str")
             end ;;
        desc <~ getitem d "description" ;;
        snap <~ getitem d "state_snapshot" ;;
        Ok (i, t, desc, snap, default (VDict []) (dict_get d (VStr "metadata")))
      else Raise (ValueError "Invalid checkpoint format")
  | _ => Raise (TypeError "not a checkpoint record")
  end.

(** [import_checkpoint(file_path)]: the id of the imported record, or
    [None] when anything in the [try] raised.  (A record whose id is
    [null] is imported and its id returned: [Some VNone] here.) *)
Definition import_checkpoint (self : t) (w : world) (file_path : string)
  : option pyval * t * world :=
  match checkpoint_data <~ json_load w file_path ;; read_checkpoint checkpoint_data with
  | Raise _ => (None, self, w)
  | Ok (i, ts, desc, snap, md) =>
      let '(snap_ref, w1) := alloc w snap in
      let '(md_ref, w2) := alloc w1 md in
      let rollback_point := RollbackPoint.mk i ts desc snap_ref md_ref in
      (Some (RollbackPoint.id rollback_point),
       mk (enabled self) (max_history self) (auto_cleanup self)
          (rollback_points self ++ [rollback_point]) (current_state self)
          (rollback_count self) (checkpoint_count self),
       w2)
  end.




End RollbackManager.

(** ** Sequences of calls on one manager

    What a caller can do between two observations: call a method of the
    manager, create an object of its own, or mutate in place an object it
    holds a reference to. *)

Inductive call : Type :=
| CreateCheckpoint (now_id now_ts : datetime.t) (description : pyval)
                   (state : addr) (metadata : option addr)
| RollbackToCheckpoint (checkpoint_id : pyval)
| RollbackToLatest
| RollbackNSteps (steps : Z)
| DeleteCheckpoint (checkpoint_id : pyval)
| ClearHistory
| ExportCheckpoint (checkpoint_id : pyval) (file_path : string)
| ImportCheckpoint (file_path : string)
| NewObject (v : pyval)
| MutateObject (a : addr) (v : pyval).

(** One call; the first component is the id returned when the call is a
    [create_checkpoint]. *)
Definition step (c : call) (s : RollbackManager.t * world)
  : option pyval * (RollbackManager.t * world) :=
  let '(self, w) := s in
  match c with
  | CreateCheckpoint now_id now_ts description state metadata =>
      let '(i, self', w') :=
        RollbackManager.create_checkpoint self w now_id now_ts description state metadata in
      (Some i, (self', w'))
  | RollbackToCheckpoint checkpoint_id =>
      let '(_, self', w') := RollbackManager.rollback_to_checkpoint self w checkpoint_id in
      (None, (self', w'))
  | RollbackToLatest =>
      let '(_, self', w') := RollbackManager.rollback_to_latest self w in
      (None, (self', w'))
  | RollbackNSteps steps =>
      let '(_, self', w') := RollbackManager.rollback_n_steps self w steps in
      (None, (self', w'))
  | DeleteCheckpoint checkpoint_id =>
      (None, (snd (RollbackManager.delete_checkpoint self checkpoint_id), w))
  | ClearHistory =>
      let '(_, self', w') := RollbackManager.clear_history self w in
      (None, (self', w'))
  | ExportCheckpoint checkpoint_id file_path =>
      (None, (self, snd (RollbackManager.export_checkpoint self w checkpoint_id file_path)))
  | ImportCheckpoint file_path =>
      let '(_, self', w') := RollbackManager.import_checkpoint self w file_path in
      (None, (self', w'))
  | NewObject v => (None, (self, snd (alloc w v)))
  | MutateObject a v => (None, (self, mutate w a v))
  end.

(** A sequence of calls; returns the ids handed out by the
    [create_checkpoint] calls, in order, and the final state. *)
Fixpoint run (cs : list call) (s : RollbackManager.t * world)
  : list pyval * (RollbackManager.t * world) :=
  match cs with
  | [] => ([], s)
  | c :: cs' =>
      let '(r, s') := step c s in
      let '(ids, s'') := run cs' s' in
      (match r with Some i => i :: ids | None => ids end, s'')
  end.

(** The sentinel [create_checkpoint] returns when disabled. *)
Definition sentinel : pyval := VStr "".

Definition is_sentinel (v : pyval) : bool := py_eqb v sentinel.

(** ** Predicates used in the statements *)




(** No two entries of the history bear ids that compare equal. *)
Fixpoint ids_distinct (points : list RollbackPoint.t) : bool :=
  match points with
  | [] => true
  | cp :: rest =>
      forallb (fun cp' => negb (py_eqb (RollbackPoint.id cp) (RollbackPoint.id cp'))) rest
      && ids_distinct rest
  end.

(** The payload of a stored entry. *)
Definition payload (w : world) (cp : RollbackPoint.t) : pyval :=
  deref w (RollbackPoint.state_snapshot cp).

(** The manager after a successful restore that returned [a]: the history
    is as before, [a] is the current state, one more rollback is counted. *)
Definition restored (self : RollbackManager.t) (a : addr) : RollbackManager.t :=
  RollbackManager.mk
    (RollbackManager.enabled self) (RollbackManager.max_history self)
    (RollbackManager.auto_cleanup self) (RollbackManager.rollback_points self)
    a (S (RollbackManager.rollback_count self)) (RollbackManager.checkpoint_count self).


(** Every reference the manager holds is to an existing object. *)
Definition refs_valid (self : RollbackManager.t) (w : world) : Prop :=
  Forall (fun cp => RollbackPoint.state_snapshot cp < length (heap w)
                    /\ RollbackPoint.metadata cp < length (heap w))
         (RollbackManager.rollback_points self)
  /\ RollbackManager.current_state self < length (heap w).

(** A call whose references are to existing objects. *)
Definition call_ok (w : world) (c : call) : Prop :=
  match c with
  | CreateCheckpoint _ _ _ state metadata =>
      state < length (heap w)
      /\ match metadata with Some m => m < length (heap w) | None => True end
  | _ => True
  end.

(** A sequence of calls each of which is [call_ok] when it is made. *)
Fixpoint calls_ok (cs : list call) (s : RollbackManager.t * world) : Prop :=
  match cs with
  | [] => True
  | c :: cs' => call_ok (snd s) c /\ calls_ok cs' (snd (step c s))
  end.

(** A call that is not an import. *)
Definition not_import (c : call) : bool :=
  match c with ImportCheckpoint _ => false | _ => true end.

(** A call that is a [create_checkpoint]. *)
Definition is_create (c : call) : bool :=
  match c with CreateCheckpoint _ _ _ _ _ => true | _ => false end.

(** The history after a run. *)
Definition history_after (cs : list call) (s : RollbackManager.t * world)
  : list RollbackPoint.t :=
  RollbackManager.rollback_points (fst (snd (run cs s))).

(** An entry whose id was generated by [create_checkpoint] at counter [c]. *)
Definition generated_at (cp : RollbackPoint.t) (c : nat) : Prop :=
  exists now, RollbackPoint.id cp = VStr (RollbackManager.checkpoint_id_of c now).

(** The ids of the history were generated by this manager, at increasing
    counters below the current one. *)
Definition ids_generated (self : RollbackManager.t) : Prop :=
  exists counters,
    Forall2 generated_at (RollbackManager.rollback_points self) counters
    /\ StronglySorted lt counters
    /\ Forall (fun c => c < RollbackManager.checkpoint_count self) counters.

(** Every id of the history is a string. *)
Definition string_ids (points : list RollbackPoint.t) : Prop :=
  Forall (fun cp => exists s, RollbackPoint.id cp = VStr s) points.

(** The manager with another history, everything else as it is. *)
Definition with_history (self : RollbackManager.t) (points : list RollbackPoint.t)
  : RollbackManager.t :=
  RollbackManager.mk
    (RollbackManager.enabled self) (RollbackManager.max_history self)
    (RollbackManager.auto_cleanup self) points
    (RollbackManager.current_state self) (RollbackManager.rollback_count self)
    (RollbackManager.checkpoint_count self).

(** ** Example states

    A caller holding a few objects, the files of a small file system, and
    the stores the examples below start from. *)

Module examples.
Import RollbackManager.

Definition t0 : datetime.t := datetime.mk 2024 1 15 10 30 0 0.
Definition t1 : datetime.t := datetime.mk 2024 1 15 10 30 1 0.
Definition t2 : datetime.t := datetime.mk 2024 1 15 10 30 2 500.

(** A record as [export_checkpoint] writes it, with a timestamp older
    than [t0]. *)
Definition old_record : json :=
  JObj [ ("id", JStr "old");
         ("timestamp", JStr "2020-02-29T08:00:00");
         ("description", JStr "imported");
         ("state_snapshot", JObj [("x", JNum 0)]);
         ("metadata", JObj []) ].

(** A later record bearing the same id. *)
Definition clash_record : json :=
  JObj [ ("id", JStr "old");
         ("timestamp", JStr "2021-03-01T09:00:00");
         ("description", JStr "imported again");
         ("state_snapshot", JObj [("x", JNum 5)]);
         ("metadata", JObj []) ].

(** The same without its ["metadata"] member. *)
Definition bare_record : json :=
  JObj [ ("id", JStr "bare");
         ("timestamp", JStr "2020-02-29T08:00:00");
         ("description", JStr "imported");
         ("state_snapshot", JObj [("x", JNum 0)]) ].

(** A record whose ["description"] member is missing, and one whose
    timestamp is not a date. *)
Definition short_record : json :=
  JObj [ ("id", JStr "short");
         ("timestamp", JStr "2020-02-29T08:00:00");
         ("state_snapshot", JObj [("x", JNum 0)]) ].

Definition undated_record : json :=
  JObj [ ("id", JStr "undated");
         ("timestamp", JStr "yesterday");
         ("description", JStr "imported");
         ("state_snapshot", JObj [("x", JNum 0)]) ].

(** The caller's objects:
    - 0: [{"x": 1}]
    - 1: [{"x": 2}]
    - 2: [{"h": {1, 2}}], a set inside the state
    - 3: [{"k": {(1, 2): "v"}}], a tuple as a nested key
    - 4: [{"t": (1, 2)}], a tuple as a value
    - 5: [{"reason": "manual"}], used as metadata *)
Definition caller_world : world :=
  mkWorld
    [ VDict [(VStr "x", VInt 1)];
      VDict [(VStr "x", VInt 2)];
      VDict [(VStr "h", VObj "set" "{1, 2}")];
      VDict [(VStr "k", VDict [(VTuple [VInt 1; VInt 2], VStr "v")])];
      VDict [(VStr "t", VTuple [VInt 1; VInt 2])];
      VDict [(VStr "reason", VStr "manual")] ]
    {[ "old.json" := FileJson old_record;
       "clash.json" := FileJson clash_record;
       "bare.json" := FileJson bare_record;
       "short.json" := FileJson short_record;
       "undated.json" := FileJson undated_record ]}
    ∅.

(** [RollbackManager({})] *)
Definition default_store : t * world :=
  init (mkConfig None None None) caller_world.

(** [RollbackManager({"enabled": False})] *)
Definition disabled_store : t * world :=
  init (mkConfig (Some false) None None) caller_world.

(** [RollbackManager({"max_history": 1})] *)
Definition single_store : t * world :=
  init (mkConfig None (Some 1%Z) None) caller_world.

(** A store after [create_checkpoint(description, state)] at clock
    reading [now]. *)
Definition checkpointed (s : t * world) (now : datetime.t)
    (description : string) (state : addr) : pyval * t * world :=
  create_checkpoint (fst s) (snd s) now now (VStr description) state None.

(** The single-entry store after a first checkpoint of object 0. *)
Definition single_after_init : pyval * t * world :=
  checkpointed single_store t0 "init" 0.

(** ... and after an import of ["old.json"] on top of it. *)
Definition single_after_import : option pyval * t * world :=
  import_checkpoint (snd (fst single_after_init)) (snd single_after_init) "old.json".

(** ... and after a further checkpoint of object 1. *)
Definition single_after_update : pyval * t * world :=
  create_checkpoint (snd (fst single_after_import)) (snd single_after_import)
                    t1 t1 (VStr "update") 1 None.


(** An enabled store into which ["old.json"], then ["clash.json"], were
    imported: two entries bearing the id ["old"]. *)
Definition default_after_import : option pyval * t * world :=
  import_checkpoint (fst default_store) (snd default_store) "old.json".


(** Two checkpoints taken within one clock tick: object 0, then object 1,
    both stamped [t0]. *)
Definition tick_first : pyval * t * world := checkpointed default_store t0 "init" 0.


(** Two checkpoints at distinct clock readings. *)
Definition later_second : pyval * t * world :=
  create_checkpoint (snd (fst tick_first)) (snd tick_first)
                    t1 t1 (VStr "update") 1 None.

Definition with_tuple_key : pyval * t * world := checkpointed default_store t0 "key" 3.

(** The entry a first checkpoint of the default store creates: the
    caller's six objects and the manager's current state come first, so
    the copy of the state is object 7 and the metadata object 8. *)
Definition first_entry (description : string) : RollbackPoint.t :=
  RollbackPoint.mk (VStr "checkpoint_0_20240115_103000") t0 (VStr description) 7 8.

(** A first checkpoint of object 0 with object 5 passed as metadata, and
    the world after the caller then assigns [metadata["reason"] = "edited"]
    in its own object. *)
Definition with_metadata : pyval * t * world :=
  create_checkpoint (fst default_store) (snd default_store) t0 t0
                    (VStr "init") 0 (Some 5).

Definition metadata_edited : world :=
  mutate (snd with_metadata) 5 (VDict [(VStr "reason", VStr "edited")]).




(** After the first checkpoint of object 0: the dict [get_checkpoint]
    returns for its id, and the world after the caller assigns
    [d["state_snapshot"]["x"] = 99] through that dict. *)
Definition looked_up : option RollbackPoint.dict :=
  get_checkpoint (snd (fst tick_first)) (fst (fst tick_first)).

Definition tampered : world :=
  match looked_up with
  | Some d =>
      mutate (snd tick_first) (RollbackPoint.d_state_snapshot d)
             (VDict [(VStr "x", VInt 99)])
  | None => snd tick_first
  end.

(** The same through the first dict of [get_checkpoint_history]. *)
Definition tampered_history : world :=
  match get_checkpoint_history (snd (fst tick_first)) with
  | d :: _ =>
      mutate (snd tick_first) (RollbackPoint.d_state_snapshot d)
             (VDict [(VStr "x", VInt 99)])
  | [] => snd tick_first
  end.


(** [RollbackManager({"max_history": 2})] *)
Definition double_store : t * world :=
  init (mkConfig None (Some 2%Z) None) caller_world.

(** Three checkpoints in a row, of objects 0, 1 and 0 again. *)
Definition three_creates : list call :=
  [ CreateCheckpoint t0 t0 (VStr "init") 0 None;
    CreateCheckpoint t1 t1 (VStr "update") 1 None;
    CreateCheckpoint t2 t2 (VStr "final") 0 None ].

End examples.

(** * Theorems *)

(** ** Induction on values *)

Lemma pyval_ind' (P : pyval -> Prop) :
  P VNone ->
  (forall b, P (VBool b)) ->
  (forall z, P (VInt z)) ->
  (forall s, P (VStr s)) ->
  (forall l, Forall P l -> P (VList l)) ->
  (forall l, Forall P l -> P (VTuple l)) ->
  (forall d, Forall (fun kv => P (fst kv) /\ P (snd kv)) d -> P (VDict d)) ->
  (forall c r, P (VObj c r)) ->
  forall v, P v.
Proof.
  intros HN HB HI HS HL HT HD HO.
  fix IH 1.
  intros [ | b | z | s | l | l | d | c r ].
  - exact HN.
  - apply HB.
  - apply HI.
  - apply HS.
  - apply HL. induction l as [ | x l IHl ]; constructor; [ apply IH | exact IHl ].
  - apply HT. induction l as [ | x l IHl ]; constructor; [ apply IH | exact IHl ].
  - apply HD. induction d as [ | [k x] d IHd ]; constructor;
      [ split; apply IH | exact IHd ].
  - apply HO.
Qed.

Lemma json_ind' (P : json -> Prop) :
  P JNull ->
  (forall b, P (JBool b)) ->
  (forall z, P (JNum z)) ->
  (forall s, P (JStr s)) ->
  (forall l, Forall P l -> P (JArr l)) ->
  (forall m, Forall (fun kx => P (snd kx)) m -> P (JObj m)) ->
  forall j, P j.
Proof.
  intros HN HB HI HS HA HO.
  fix IH 1.
  intros [ | b | z | s | l | m ].
  - exact HN.
  - apply HB.
  - apply HI.
  - apply HS.
  - apply HA. induction l as [ | x l IHl ]; constructor; [ apply IH | exact IHl ].
  - apply HO. induction m as [ | [k x] m IHm ]; constructor; [ apply IH | exact IHm ].
Qed.

(** ** Python equality *)

Lemma py_eqb_refl (v : pyval) : py_eqb v v = true.
Proof.
  induction v as [ | b | z | s | l IHl | l IHl | d IHd | c r ] using pyval_ind'; simpl.
  - reflexivity.
  - by destruct b.
  - apply Z.eqb_refl.
  - apply String.eqb_refl.
  - induction IHl as [ | x l Hx _ IH ]; [ done | ]. by rewrite Hx, IH.
  - induction IHl as [ | x l Hx _ IH ]; [ done | ]. by rewrite Hx, IH.
  - rewrite Nat.eqb_refl. simpl.
    assert (Hsub : forall e, Forall (fun kv => kv ∈ e) d ->
      (fix each (d0 : list (pyval * pyval)) : bool :=
         match d0 with
         | [] => true
         | (k, v) :: d' =>
             (fix found (e0 : list (pyval * pyval)) : bool :=
                match e0 with
                | [] => false
                | (k', v') :: e' => (py_eqb k k' && py_eqb v v') || found e'
                end) e && each d'
         end) d = true).
    { intros e He. induction IHd as [ | [k x] d [Hk Hx] _ IH ]; [ done | ].
      inversion He as [ | ? ? Hin Hrest ]; subst.
      rewrite IH by exact Hrest. rewrite andb_true_r.
      clear -Hin Hk Hx. simpl in Hk, Hx.
      induction e as [ | [k' x'] e IHe ]; [ by apply elem_of_nil in Hin | ].
      apply elem_of_cons in Hin as [ Heq | Hin ].
      - inversion Heq; subst. by rewrite Hk, Hx.
      - rewrite IHe by exact Hin. apply orb_true_r. }
    apply Hsub. by apply Forall_forall.
  - by rewrite !String.eqb_refl.
Qed.

Lemma py_eqb_str (s t : string) : py_eqb (VStr s) (VStr t) = true <-> s = t.
Proof. simpl. apply String.eqb_eq. Qed.

(** ** The order on datetimes *)

Module datetime_facts.
Import datetime.

Lemma lex_compare_antisym (a b : list Z) :
  lex_compare b a = CompOpp (lex_compare a b).
Proof.
  revert b. induction a as [ | x a IH ]; intros [ | y b ]; simpl; try reflexivity.
  rewrite (Z.compare_antisym x y).
  destruct (Z.compare x y); simpl; [ apply IH | reflexivity | reflexivity ].
Qed.

Lemma lex_compare_eq (a b : list Z) : lex_compare a b = Eq -> a = b.
Proof.
  revert b. induction a as [ | x a IH ]; intros [ | y b ]; simpl; try done.
  destruct (Z.compare_spec x y) as [ Hxy | Hxy | Hxy ]; try done.
  intros Hc. subst. f_equal. by apply IH.
Qed.

Lemma lex_compare_lt_trans (a b c : list Z) :
  lex_compare a b = Lt -> lex_compare b c = Lt -> lex_compare a c = Lt.
Proof.
  revert b c. induction a as [ | x a IH ]; intros [ | y b ] [ | z c ]; simpl; try done.
  destruct (Z.compare_spec x y), (Z.compare_spec y z); try done; subst; intros H1 H2.
  - destruct (Z.compare_spec z z); try lia. by apply (IH b).
  - destruct (Z.compare_spec y z); try lia. done.
  - destruct (Z.compare_spec x z); try lia. done.
  - destruct (Z.compare_spec x z); try lia. done.
Qed.

Lemma fields_inj (a b : t) : fields a = fields b -> a = b.
Proof. destruct a, b. unfold fields. simpl. intros H. by inversion H. Qed.

Lemma compare_eq (a b : t) : compare a b = Eq -> a = b.
Proof. intros H. by apply fields_inj, lex_compare_eq. Qed.

Lemma compare_refl (a : t) : compare a a = Eq.
Proof.
  unfold compare. generalize (fields a). intros l.
  induction l as [ | x l IH ]; simpl; [ done | ]. by rewrite Z.compare_refl.
Qed.

Lemma ltb_irrefl (a : t) : ltb a a = false.
Proof. unfold ltb. by rewrite compare_refl. Qed.


Lemma ltb_trans (a b c : t) : ltb a b = true -> ltb b c = true -> ltb a c = true.
Proof.
  unfold ltb, compare. intros H1 H2.
  destruct (lex_compare (fields a) (fields b)) eqn:E1; try done.
  destruct (lex_compare (fields b) (fields c)) eqn:E2; try done.
  by rewrite (lex_compare_lt_trans _ _ _ E1 E2).
Qed.

Lemma ltb_asym (a b : t) : ltb a b = true -> ltb b a = false.
Proof.
  unfold ltb, compare. rewrite (lex_compare_antisym (fields a) (fields b)).
  by destruct (lex_compare (fields a) (fields b)).
Qed.

Lemma ltb_leb (a b : t) : ltb a b = true -> leb a b = true.
Proof. intros H. unfold leb. by rewrite (ltb_asym _ _ H). Qed.

Lemma leb_total (a b : t) : leb a b = true \/ leb b a = true.
Proof.
  unfold leb. destruct (ltb b a) eqn:E; [ right | by left ].
  by rewrite (ltb_asym _ _ E).
Qed.

(** [a <= b] is [a < b] or [a = b]. *)
Lemma leb_cases (a b : t) : leb a b = true -> ltb a b = true \/ a = b.
Proof.
  unfold leb, ltb, compare. rewrite (lex_compare_antisym (fields a) (fields b)).
  destruct (lex_compare (fields a) (fields b)) eqn:E; simpl; try done.
  - intros _. right. by apply compare_eq.
  - intros _. by left.
Qed.

Lemma le_lt_trans (a b c : t) : leb a b = true -> ltb b c = true -> ltb a c = true.
Proof.
  intros H1 H2. destruct (leb_cases _ _ H1) as [ H | -> ]; [ | done ].
  by apply (ltb_trans a b c).
Qed.

Lemma lt_le_trans (a b c : t) : ltb a b = true -> leb b c = true -> ltb a c = true.
Proof.
  intros H1 H2. destruct (leb_cases _ _ H2) as [ H | <- ]; [ | done ].
  by apply (ltb_trans a b c).
Qed.

Lemma leb_trans (a b c : t) : leb a b = true -> leb b c = true -> leb a c = true.
Proof.
  intros H1 H2. destruct (leb_cases _ _ H1) as [ H | -> ]; [ | done ].
  apply ltb_leb. by apply (lt_le_trans a b c).
Qed.

Lemma leb_antisym (a b : t) : leb a b = true -> leb b a = true -> a = b.
Proof.
  intros H1 H2. destruct (leb_cases _ _ H1) as [ H | -> ]; [ | done ].
  unfold leb in H2. by rewrite H in H2.
Qed.

Lemma not_ltb_leb (a b : t) : ltb a b = false -> leb b a = true.
Proof. unfold leb. by intros ->. Qed.

(** *** Printing and reading back *)

Local Open Scope Z_scope.

Lemma digit_value_digit (d : Z) : 0 <= d < 10 -> digit_value (digit d) = Some d.
Proof.
  intros H.
  assert (Hd : d = 0 \/ d = 1 \/ d = 2 \/ d = 3 \/ d = 4 \/ d = 5 \/ d = 6
               \/ d = 7 \/ d = 8 \/ d = 9) by lia.
  repeat destruct Hd as [ -> | Hd ]; try reflexivity. by subst.
Qed.

Lemma read_number_zero_padded (w : nat) (n acc : Z) (rest : list ascii) :
  0 <= n ->
  read_number acc w (zero_padded w n ++ rest)
  = Some (acc * 10 ^ Z.of_nat w + n mod 10 ^ Z.of_nat w, rest).
Proof.
  intros Hn. revert acc. induction w as [ | w IH ]; intros acc.
  - simpl. rewrite Z.mod_1_r. do 2 f_equal. lia.
  - cbn [zero_padded read_number app].
    assert (Hpow : 0 < 10 ^ Z.of_nat w) by (apply Z.pow_pos_nonneg; lia).
    rewrite digit_value_digit by (apply Z.mod_pos_bound; lia).
    cbn [mbind option_bind]. rewrite IH. do 2 f_equal.
    rewrite Nat2Z.inj_succ, Z.pow_succ_r by lia.
    rewrite (Z.mul_comm 10 (10 ^ Z.of_nat w)).
    rewrite (Z.rem_mul_r n (10 ^ Z.of_nat w) 10) by lia.
    ring.
Qed.

Lemma read_number_field (w : nat) (n : Z) (rest : list ascii) :
  0 <= n < 10 ^ Z.of_nat w ->
  read_number 0 w (zero_padded w n ++ rest) = Some (n, rest).
Proof.
  intros H. rewrite read_number_zero_padded by lia.
  rewrite Z.mod_small by lia. do 2 f_equal.
Qed.

Lemma valid_bounds (d : t) :
  valid d = true ->
  1 <= year d <= 9999 /\ 1 <= month d <= 12 /\ 1 <= day d <= 31 /\
  0 <= hour d < 24 /\ 0 <= minute d < 60 /\ 0 <= second d < 60 /\
  0 <= microsecond d < 1000000.
Proof.
  unfold valid. rewrite !andb_true_iff.
  rewrite !Z.leb_le, !Z.ltb_lt.
  assert (Hdim : days_in_month (year d) (month d) <= 31).
  { unfold days_in_month.
    repeat match goal with |- context [if ?b then _ else _] => destruct b end; lia. }
  lia.
Qed.

Lemma expect_cons (c : ascii) (l : list ascii) : expect c (c :: l) = Some l.
Proof. simpl. by rewrite Ascii.eqb_refl. Qed.

Ltac read_field :=
  rewrite read_number_field by (simpl; lia);
  cbn [mbind option_bind]; rewrite ?expect_cons; cbn [mbind option_bind].

(** [fromisoformat] reads back what [isoformat] prints. *)
Lemma fromisoformat_isoformat (d : t) :
  valid d = true -> fromisoformat (isoformat d) = Some d.
Proof.
  intros Hv. pose proof (valid_bounds d Hv) as (Hy & Hmo & Hd & Hh & Hmi & Hs & Hus).
  unfold fromisoformat, isoformat.
  rewrite list_ascii_of_string_of_list_ascii.
  do 5 read_field.
  destruct (Z.eqb_spec (microsecond d) 0) as [ H0 | H0 ].
  - read_field.
    replace (mk (year d) (month d) (day d) (hour d) (minute d) (second d) 0)
      with d by (destruct d; simpl in *; by subst).
    by rewrite Hv.
  - read_field.
    rewrite <- (app_nil_r (zero_padded 6 (microsecond d))).
    read_field.
    replace (mk (year d) (month d) (day d) (hour d) (minute d) (second d)
                (microsecond d)) with d by (by destruct d).
    by rewrite Hv.
Qed.

End datetime_facts.

(** ** [max] and [sorted] *)

Section py_builtins_facts.
Context {A : Type}.
Variable key : A -> datetime.t.
Import datetime_facts.







(** Stability: the entries bearing a given key come out in the order
    they went in. *)
Lemma insert_desc_filter (P : A -> bool) (x : A) (l : list A) :
  (forall a b, P a = true -> P b = true -> key a = key b) ->
  List.filter P (insert_desc key x l) = List.filter P (x :: l).
Proof.
  intros HP. induction l as [ | y l IH ]; [ done | ].
  cbn [insert_desc]. destruct (datetime.ltb (key x) (key y)) eqn:E; [ | done ].
  cbn [List.filter] in *. rewrite IH.
  destruct (P x) eqn:Ex, (P y) eqn:Ey; try done.
  rewrite (HP x y Ex Ey) in E. by rewrite ltb_irrefl in E.
Qed.

Lemma py_sorted_reverse_stable (P : A -> bool) (l : list A) :
  (forall a b, P a = true -> P b = true -> key a = key b) ->
  List.filter P (py_sorted_reverse key l) = List.filter P l.
Proof.
  intros HP. induction l as [ | x l IH ]; [ done | ].
  cbn [py_sorted_reverse foldr]. rewrite insert_desc_filter by done.
  cbn [List.filter]. fold (py_sorted_reverse key l). by rewrite IH.
Qed.


Lemma fold_left_max (l : list A) (b : A) :
  fold_left (fun best y => if datetime.ltb (key best) (key y) then y else best) l b
  = match first_max key l with
    | None => b
    | Some m => if datetime.ltb (key b) (key m) then m else b
    end.
Proof.
  revert b. induction l as [ | y l IH ]; intros b; [ done | ].
  cbn [fold_left first_max]. rewrite IH.
  destruct (first_max key l) as [ m | ] eqn:E; [ | done ].
  destruct (datetime.ltb (key b) (key y)) eqn:Eby,
           (datetime.ltb (key y) (key m)) eqn:Eym; try done.
  - by rewrite (ltb_trans _ _ _ Eby Eym).
  - by rewrite Eby.
  - rewrite Eby.
    assert (datetime.leb (key m) (key b) = true) as Hmb.
    { apply (leb_trans _ (key y)); by apply not_ltb_leb. }
    unfold datetime.leb in Hmb. by destruct (datetime.ltb (key b) (key m)).
Qed.

Lemma py_max_first_max (l : list A) : py_max key l = first_max key l.
Proof.
  destruct l as [ | x l ]; [ done | ].
  unfold py_max. rewrite fold_left_max. simpl.
  by destruct (first_max key l) as [ m | ]; [ destruct (datetime.ltb (key x) (key m)) | ].
Qed.

Lemma head_insert_desc (x : A) (l : list A) :
  head (insert_desc key x l)
  = match head l with
    | None => Some x
    | Some y => if datetime.ltb (key x) (key y) then Some y else Some x
    end.
Proof. destruct l as [ | y l ]; [ done | ]. simpl. by case_match. Qed.

(** The first item of the descending key sort is the item [max] returns. *)
Lemma head_py_sorted_reverse (l : list A) :
  head (py_sorted_reverse key l) = py_max key l.
Proof.
  rewrite py_max_first_max.
  induction l as [ | x l IH ]; [ done | ].
  cbn [py_sorted_reverse foldr first_max]. rewrite head_insert_desc.
  fold (py_sorted_reverse key l). by rewrite IH.
Qed.




End py_builtins_facts.

(** ** The JSON encoder and decoder *)

Lemma result_mapM_ok {A B} (f : A -> result B) (l : list A) :
  Forall (fun x => is_ok (f x) = true) l -> is_ok (result_mapM f l) = true.
Proof.
  induction 1 as [ | x l Hx _ IH ]; simpl; [ done | ].
  destruct (f x); [ simpl | done ]. by destruct (result_mapM f l).
Qed.

Lemma result_mapM_raise {A B} (f : A -> result B) (l : list A) :
  Exists (fun x => is_ok (f x) = false) l -> is_ok (result_mapM f l) = false.
Proof.
  induction 1 as [ x l Hx | x l _ IH ]; simpl.
  - by destruct (f x).
  - destruct (f x); [ simpl | done ]. by destruct (result_mapM f l).
Qed.



Lemma json_key_is_ok (k : pyval) :
  is_ok (json_key k) = match k with
                       | VStr _ | VInt _ | VBool _ | VNone => true
                       | _ => false
                       end.
Proof. destruct k as [ | [ | ] | | | | | | ]; reflexivity. Qed.


(** What the strict encoder accepts, the lenient one writes the same way. *)
Lemma json_encode_strict_lenient (v : pyval) (j : json) :
  json_encode false v = Ok j -> json_encode true v = Ok j.
Proof.
  revert j.
  induction v as [ | b | z | s | l IHl | l IHl | d IHd | c r ] using pyval_ind';
    intros j; try done.
  - cbn [json_encode].
    assert (Hl : forall js, result_mapM (json_encode false) l = Ok js ->
                            result_mapM (json_encode true) l = Ok js).
    { induction IHl as [ | x l Hx _ IH ]; intros js; simpl; [ done | ].
      destruct (json_encode false x) as [ jx | ] eqn:Ex; [ | done ].
      rewrite (Hx jx eq_refl). simpl.
      destruct (result_mapM (json_encode false) l) as [ js' | ]; [ | done ].
      by rewrite (IH js' eq_refl). }
    destruct (result_mapM (json_encode false) l) as [ js | ]; [ | done ].
    by rewrite (Hl js eq_refl).
  - cbn [json_encode].
    assert (Hl : forall js, result_mapM (json_encode false) l = Ok js ->
                            result_mapM (json_encode true) l = Ok js).
    { induction IHl as [ | x l Hx _ IH ]; intros js; simpl; [ done | ].
      destruct (json_encode false x) as [ jx | ] eqn:Ex; [ | done ].
      rewrite (Hx jx eq_refl). simpl.
      destruct (result_mapM (json_encode false) l) as [ js' | ]; [ | done ].
      by rewrite (IH js' eq_refl). }
    destruct (result_mapM (json_encode false) l) as [ js | ]; [ | done ].
    by rewrite (Hl js eq_refl).
  - cbn [json_encode].
    match goal with |- rbind (result_mapM ?f d) _ = _ -> rbind (result_mapM ?g d) _ = _ =>
      assert (Hd : forall ms, result_mapM f d = Ok ms -> result_mapM g d = Ok ms)
    end.
    { induction IHd as [ | [k x] d [_ Hx] _ IH ]; intros ms; simpl; [ done | ].
      simpl in Hx. destruct (json_key k) as [ sk | ]; [ simpl | done ].
      destruct (json_encode false x) as [ jx | ] eqn:Ex; [ | done ].
      rewrite (Hx jx eq_refl). simpl.
      match goal with |- rbind ?r _ = _ -> _ => destruct r as [ ms' | ] end; [ | done ].
      by rewrite (IH ms' eq_refl). }
    match goal with |- rbind ?r _ = _ -> _ => destruct r as [ ms | ] end; [ | done ].
    by rewrite (Hd ms eq_refl).
Qed.





(** ** The heap *)

Lemma deref_alloc_new (w : world) (v : pyval) :
  deref (snd (alloc w v)) (length (heap w)) = v.
Proof. unfold deref, alloc. simpl. by rewrite list_lookup_total_middle. Qed.

Lemma deref_alloc_old (w : world) (v : pyval) (a : addr) :
  a < length (heap w) -> deref (snd (alloc w v)) a = deref w a.
Proof. intros H. unfold deref, alloc. simpl. by rewrite lookup_total_app_l. Qed.

Lemma heap_alloc_length (w : world) (v : pyval) :
  length (heap (snd (alloc w v))) = S (length (heap w)).
Proof. unfold alloc. simpl. rewrite length_app. simpl. lia. Qed.

Lemma deref_mutate_other (w : world) (a b : addr) (v : pyval) :
  a <> b -> deref (mutate w a v) b = deref w b.
Proof. intros H. unfold deref, mutate. simpl. by rewrite list_lookup_total_insert_ne. Qed.

Lemma deref_mutate_same (w : world) (a : addr) (v : pyval) :
  a < length (heap w) -> deref (mutate w a v) a = v.
Proof. intros H. unfold deref, mutate. simpl. by rewrite list_lookup_total_insert_eq. Qed.

(** ** Lookup by id *)

Section lookup.
Import RollbackManager.

Lemma find_checkpoint_elem (points : list RollbackPoint.t) (i : pyval)
    (cp : RollbackPoint.t) :
  find_checkpoint points i = Some cp ->
  cp ∈ points /\ py_eqb (RollbackPoint.id cp) i = true.
Proof.
  unfold find_checkpoint. intros H. apply find_some in H as [Hin Heq].
  split; [ by apply list_elem_of_In | done ].
Qed.

(** An id borne by some entry is always found. *)
Lemma find_checkpoint_is_Some (points : list RollbackPoint.t) (cp : RollbackPoint.t) :
  cp ∈ points -> is_Some (find_checkpoint points (RollbackPoint.id cp)).
Proof.
  unfold find_checkpoint. induction 1 as [ cp l | cp y l _ IH ]; simpl.
  - by rewrite py_eqb_refl.
  - by destruct (py_eqb (RollbackPoint.id y) (RollbackPoint.id cp)).
Qed.

(** With distinct ids, the entry found is the entry asked for. *)
Lemma find_checkpoint_distinct (points : list RollbackPoint.t) (cp : RollbackPoint.t) :
  ids_distinct points = true -> cp ∈ points ->
  find_checkpoint points (RollbackPoint.id cp) = Some cp.
Proof.
  unfold find_checkpoint. intros Hd Hin. induction Hin as [ cp l | cp y l Hin IH ].
  - simpl. by rewrite py_eqb_refl.
  - simpl in *. apply andb_true_iff in Hd as [Hy Hd].
    rewrite forallb_forall in Hy.
    specialize (Hy cp (proj1 (list_elem_of_In _ _) Hin)).
    apply negb_true_iff in Hy. rewrite Hy. by apply IH.
Qed.
End lookup.

(** ** C9: a disabled manager *)

(** C9. When the store is configured off ([enabled] false),
    [create_checkpoint] returns to its caller, the value returned is the
    empty id, and nothing else happens: the manager and every object are
    as before. *)
Theorem C9_disabled_create_returns_sentinel
    (self : RollbackManager.t) (w : world) (now_id now_ts : datetime.t)
    (description : pyval) (state : addr) (metadata : option addr) :
  RollbackManager.enabled self = false ->
  RollbackManager.create_checkpoint self w now_id now_ts description state metadata
  = (VStr "", self, w).
Proof. intros H. unfold RollbackManager.create_checkpoint. by rewrite H. Qed.

Lemma C9_witness :
  RollbackManager.create_checkpoint
    (fst examples.disabled_store) (snd examples.disabled_store)
    examples.t0 examples.t0 (VStr "init") 0 None
  = (VStr "", fst examples.disabled_store, snd examples.disabled_store).
Proof. apply C9_disabled_create_returns_sentinel. reflexivity. Defined.

(** ** Import *)

Section import_facts.
Import RollbackManager.


(** What a well-formed record does to the store: one entry is appended,
    holding the fields of the record; its state and metadata are two new
    objects. *)
Lemma import_checkpoint_success (self : t) (w : world) (path : string)
    (d : list (pyval * pyval)) (i : pyval) (s : string) (ts : datetime.t)
    (desc snap : pyval) :
  json_load w path = Ok (VDict d) ->
  dict_get d (VStr "id") = Some i ->
  dict_get d (VStr "timestamp") = Some (VStr s) ->
  datetime.fromisoformat s = Some ts ->
  dict_get d (VStr "description") = Some desc ->
  dict_get d (VStr "state_snapshot") = Some snap ->
  import_checkpoint self w path
  = (Some i,
     mk (enabled self) (max_history self) (auto_cleanup self)
        (rollback_points self
         ++ [RollbackPoint.mk i ts desc (length (heap w)) (S (length (heap w)))])
        (current_state self) (rollback_count self) (checkpoint_count self),
     mkWorld (heap w ++ [snap; default (VDict []) (dict_get d (VStr "metadata"))])
             (files w) (unwritable w)).
Proof.
  intros Hload Hid Hts Hparse Hdesc Hsnap.
  unfold import_checkpoint. rewrite Hload. cbn [rbind read_checkpoint].
  unfold required_keys, dict_has, getitem. cbn [forallb].
  rewrite Hid, Hts, Hdesc, Hsnap. cbn [andb rbind]. rewrite Hparse. cbn [rbind].
  unfold alloc. cbn [heap files unwritable RollbackPoint.id].
  rewrite length_app, <- app_assoc. cbn [length app].
  by rewrite Nat.add_1_r.
Qed.

End import_facts.



(** ** Checkpoint ids *)

Section id_facts.
Import RollbackManager.

(** A decimal numeral followed by an underscore determines the numeral:
    no digit is an underscore. *)
Lemma string_of_uint_sep_inj (d1 d2 : Decimal.uint) (r1 r2 : string) :
  NilEmpty.string_of_uint d1 +:+ String "_" r1
  = NilEmpty.string_of_uint d2 +:+ String "_" r2 ->
  d1 = d2.
Proof.
  revert d2. induction d1 as [ | d1 IH | d1 IH | d1 IH | d1 IH | d1 IH
                               | d1 IH | d1 IH | d1 IH | d1 IH | d1 IH ];
    intros [ | d2 | d2 | d2 | d2 | d2 | d2 | d2 | d2 | d2 | d2 ]; simpl;
    intros H; try discriminate H; try reflexivity;
    f_equal; apply IH; by injection H.
Qed.

(** The counter can be read off the id. *)
Lemma checkpoint_id_of_inj (c c' : nat) (now now' : datetime.t) :
  checkpoint_id_of c now = checkpoint_id_of c' now' -> c = c'.
Proof.
  unfold checkpoint_id_of, string_of_nat. intros H.
  apply DecimalNat.Unsigned.to_uint_inj.
  eapply string_of_uint_sep_inj.
  simpl in H. injection H as H. exact H.
Qed.

Lemma checkpoint_id_of_not_sentinel (c : nat) (now : datetime.t) :
  is_sentinel (VStr (checkpoint_id_of c now)) = false.
Proof. reflexivity. Qed.

(** *** The counter never goes back *)

Lemma rollback_to_checkpoint_count (self : t) (w : world) (i : pyval) :
  checkpoint_count (snd (fst (rollback_to_checkpoint self w i))) = checkpoint_count self.
Proof.
  unfold rollback_to_checkpoint. destruct (negb (enabled self)); [ done | ].
  by destruct (find_checkpoint (rollback_points self) i).
Qed.

Lemma rollback_to_latest_count (self : t) (w : world) :
  checkpoint_count (snd (fst (rollback_to_latest self w))) = checkpoint_count self.
Proof.
  unfold rollback_to_latest.
  destruct (py_max _ _); [ apply rollback_to_checkpoint_count | done ].
Qed.

Lemma rollback_n_steps_count (self : t) (w : world) (n : Z) :
  checkpoint_count (snd (fst (rollback_n_steps self w n))) = checkpoint_count self.
Proof.
  unfold rollback_n_steps. destruct (rollback_points self); [ done | ].
  destruct (_ || _); [ done | ].
  destruct (_ !! _); [ apply rollback_to_checkpoint_count | done ].
Qed.

Lemma delete_checkpoint_count (self : t) (i : pyval) :
  checkpoint_count (snd (delete_checkpoint self i)) = checkpoint_count self.
Proof. unfold delete_checkpoint. by destruct (index_of _ _). Qed.

Lemma clear_history_count (self : t) (w : world) :
  checkpoint_count (snd (fst (clear_history self w))) = checkpoint_count self.
Proof. unfold clear_history. by destruct (deref w _). Qed.

Lemma import_checkpoint_count (self : t) (w : world) (path : string) :
  checkpoint_count (snd (fst (import_checkpoint self w path))) = checkpoint_count self.
Proof.
  unfold import_checkpoint.
  by destruct (rbind (json_load w path) _) as [ [[[[i ts] desc] snap] md] | e ].
Qed.

(** A [create_checkpoint] either hands out the sentinel and leaves the
    counter alone, or hands out the id of the current counter and
    advances it. *)
Lemma create_checkpoint_issue (self : t) (w : world) (now_id now_ts : datetime.t)
    (description : pyval) (state : addr) (metadata : option addr) :
  let r := create_checkpoint self w now_id now_ts description state metadata in
  (fst (fst r) = sentinel /\ checkpoint_count (snd (fst r)) = checkpoint_count self)
  \/ (fst (fst r) = VStr (checkpoint_id_of (checkpoint_count self) now_id)
      /\ checkpoint_count (snd (fst r)) = S (checkpoint_count self)).
Proof.
  unfold create_checkpoint. destruct (negb (enabled self)); [ by left | right ].
  destruct (deepcopy w state) as [snapshot w1].
  destruct (match metadata with Some m => _ | None => _ end) as [md w2].
  by destruct (deepcopy w2 state) as [cur w3].
Qed.

(** One call: the counter does not decrease, and an id handed out bears
    the counter the call started from. *)
Lemma step_issue (c : call) (s : t * world) :
  let r := step c s in
  checkpoint_count (fst s) <= checkpoint_count (fst (snd r))
  /\ forall i, fst r = Some i ->
       i = sentinel
       \/ (exists now, i = VStr (checkpoint_id_of (checkpoint_count (fst s)) now))
          /\ checkpoint_count (fst (snd r)) = S (checkpoint_count (fst s)).
Proof.
  destruct s as [self w]. destruct c; cbn [step fst snd].
  - pose proof (create_checkpoint_issue self w now_id now_ts description state metadata)
      as H. cbv zeta in H.
    destruct (create_checkpoint self w now_id now_ts description state metadata)
      as [[i self'] w']. cbn [fst snd] in *.
    destruct H as [[Hi Hc] | [Hi Hc]]; rewrite Hc.
    + split; [ lia | ]. intros ? [= <-]. by left.
    + split; [ lia | ]. intros ? [= <-]. right. split; [ by exists now_id | done ].
  - pose proof (rollback_to_checkpoint_count self w checkpoint_id) as H.
    destruct (rollback_to_checkpoint self w checkpoint_id) as [[r self'] w'].
    cbn [fst snd] in *. split; [ lia | done ].
  - pose proof (rollback_to_latest_count self w) as H.
    destruct (rollback_to_latest self w) as [[r self'] w'].
    cbn [fst snd] in *. split; [ lia | done ].
  - pose proof (rollback_n_steps_count self w steps) as H.
    destruct (rollback_n_steps self w steps) as [[r self'] w'].
    cbn [fst snd] in *. split; [ lia | done ].
  - rewrite delete_checkpoint_count. split; [ lia | done ].
  - pose proof (clear_history_count self w) as H.
    destruct (clear_history self w) as [[r self'] w'].
    cbn [fst snd] in *. split; [ lia | done ].
  - split; [ lia | done ].
  - pose proof (import_checkpoint_count self w file_path) as H.
    destruct (import_checkpoint self w file_path) as [[r self'] w'].
    cbn [fst snd] in *. split; [ lia | done ].
  - split; [ lia | done ].
  - split; [ lia | done ].
Qed.

(** Every id handed out in a run is the sentinel or bears a counter at
    least as large as the counter the run started from; the ids other
    than the sentinel are pairwise distinct. *)
Lemma run_issue (cs : list call) (s : t * world) :
  Forall (fun i => i = sentinel
                   \/ exists c now, i = VStr (checkpoint_id_of c now)
                                    /\ checkpoint_count (fst s) <= c)
         (fst (run cs s))
  /\ NoDup (List.filter (fun i => negb (is_sentinel i)) (fst (run cs s))).
Proof.
  revert s. induction cs as [ | c cs IH ]; intros s.
  - split; constructor.
  - cbn [run]. pose proof (step_issue c s) as Hstep. cbv zeta in Hstep.
    destruct (step c s) as [r s']. destruct (IH s') as [Hall Hnd].
    destruct (run cs s') as [ids s'']. cbn [fst snd] in *.
    destruct Hstep as [Hle Hr].
    assert (Hall' : Forall (fun i => i = sentinel
                   \/ exists c now, i = VStr (checkpoint_id_of c now)
                                    /\ checkpoint_count (fst s) <= c) ids).
    { eapply Forall_impl; [ exact Hall | ].
      intros i [ -> | (c0 & now & -> & Hc) ]; [ by left | right ].
      exists c0, now. split; [ done | lia ]. }
    destruct r as [ i | ]; [ | by split ].
    destruct (Hr i eq_refl) as [ -> | [[now ->] Hcount] ].
    + split; [ constructor; [ by left | done ] | done ].
    + split.
      * constructor; [ right; by exists (checkpoint_count (fst s)), now | done ].
      * cbn [List.filter]. rewrite checkpoint_id_of_not_sentinel. cbn [negb].
        constructor; [ | done ].
        rewrite list_elem_of_In, filter_In, <- list_elem_of_In.
        intros [Hin _]. rewrite Forall_forall in Hall.
        destruct (Hall _ Hin) as [ Hs | (c0 & now0 & Heq & Hc) ]; [ done | ].
        assert (Hq : checkpoint_id_of (checkpoint_count (fst s)) now
                     = checkpoint_id_of c0 now0) by congruence.
        apply checkpoint_id_of_inj in Hq. lia.
Qed.
End id_facts.

(** C6. Whatever calls are made on one store, in whatever order
    (checkpoints, restores, deletions, clearing the history, exports,
    imports, with evictions along the way, and with the caller creating
    and mutating objects in between), the ids returned by the
    [create_checkpoint] calls, the sentinel apart, are strings and are
    pairwise distinct: an id handed out once is not handed out again. *)
Theorem C6_created_ids_pairwise_distinct
    (cs : list call) (self : RollbackManager.t) (w : world) :
  NoDup (List.filter (fun i => negb (is_sentinel i)) (fst (run cs (self, w))))
  /\ Forall (fun i => exists s, i = VStr s) (fst (run cs (self, w))).
Proof.
  destruct (run_issue cs (self, w)) as [Hall Hnd]. split; [ exact Hnd | ].
  eapply Forall_impl; [ exact Hall | ].
  intros i [ -> | (c & now & -> & _) ]; eauto.
Qed.

(** ** Bounded history *)

Section bound_facts.
Import RollbackManager.
Import datetime_facts.

(** In a history in timestamp order, the first entry is the one [min]
    picks: the lowest timestamp, the earliest inserted among equals. *)
Lemma py_min_ascending {A} (key : A -> datetime.t) (x : A) (l : list A) :
  ascending key (x :: l) -> py_min key (x :: l) = Some x.
Proof.
  intros H. inversion H as [ | ? ? _ Hx ]; subst. unfold py_min. f_equal.
  clear H. induction Hx as [ | y l Hy _ IH ]; [ done | ].
  cbn [fold_left]. unfold datetime.leb in Hy.
  by destruct (datetime.ltb (key y) (key x)).
Qed.

(** The history after an enabled [create_checkpoint]: the new entry is
    appended, then the first entry is dropped if the bound is enforced
    and exceeded. *)
Lemma create_checkpoint_points (self : t) (w : world) (now_id now_ts : datetime.t)
    (description : pyval) (state : addr) (metadata : option addr) :
  enabled self = true ->
  exists new,
    RollbackPoint.id new = fst (fst (create_checkpoint self w now_id now_ts
                                       description state metadata))
    /\ RollbackPoint.timestamp new = now_ts
    /\ RollbackPoint.state_snapshot new = length (heap w)
    /\ rollback_points (snd (fst (create_checkpoint self w now_id now_ts
                                    description state metadata)))
       = if auto_cleanup self
            && (max_history self <? Z.of_nat (length (rollback_points self ++ [new])))%Z
         then drop 1 (rollback_points self ++ [new])
         else rollback_points self ++ [new].
Proof.
  intros He. unfold create_checkpoint, deepcopy, alloc. rewrite He. cbn [negb].
  destruct metadata as [ m | ]; [ destruct (truthy _) | ]; cbn [fst snd];
    eexists (RollbackPoint.mk _ _ _ _ _); repeat split; reflexivity.
Qed.
End bound_facts.

(** C2 (amended).  With the bound enforced ([auto_cleanup] true,
    [max_history] = K >= 0) an enabled [create_checkpoint] on a history of
    at most K entries leaves at most K entries.  An eviction removes
    exactly one entry, the first in insertion order; when the history is
    in timestamp order that entry is the one with the lowest timestamp,
    the earliest inserted among equals.  [import_checkpoint] appends the
    imported entry at the end of the same history, where later
    [create_checkpoint] calls evict it in insertion order like any other
    entry. *)
Theorem C2_bound_after_create_fifo_by_insertion
    (self : RollbackManager.t) (w : world) (now_id now_ts : datetime.t)
    (description : pyval) (state : addr) (metadata : option addr) :
  RollbackManager.enabled self = true ->
  RollbackManager.auto_cleanup self = true ->
  exists new,
    RollbackPoint.id new
    = fst (fst (RollbackManager.create_checkpoint self w now_id now_ts
                  description state metadata))
    /\ RollbackPoint.timestamp new = now_ts
    /\ let points := RollbackManager.rollback_points self in
       let points' :=
         RollbackManager.rollback_points
           (snd (fst (RollbackManager.create_checkpoint self w now_id now_ts
                        description state metadata))) in
       let K := RollbackManager.max_history self in
       ((0 <= K)%Z -> (Z.of_nat (length points) <= K)%Z ->
        (Z.of_nat (length points') <= K)%Z)
       /\ ((K < Z.of_nat (length points) + 1)%Z ->
           points' = drop 1 (points ++ [new])
           /\ length points' = length points)
       /\ ((Z.of_nat (length points) + 1 <= K)%Z -> points' = points ++ [new])
       /\ (forall oldest rest,
             points ++ [new] = oldest :: rest ->
             ascending RollbackPoint.timestamp (points ++ [new]) ->
             py_min RollbackPoint.timestamp (points ++ [new]) = Some oldest)
       /\ (forall path i self1 w1,
             RollbackManager.import_checkpoint self w path = (Some i, self1, w1) ->
             exists cp, RollbackPoint.id cp = i
                        /\ RollbackManager.rollback_points self1 = points ++ [cp]).
Proof.
  intros He Hac.
  destruct (create_checkpoint_points self w now_id now_ts description state metadata He)
    as (new & Hid & Hts & _ & Hpts).
  exists new. split; [ exact Hid | ]. split; [ exact Hts | ]. cbv zeta.
  rewrite Hpts, Hac. cbn [andb]. rewrite length_app. cbn [length].
  repeat split.
  - intros HK Hlen. destruct (Z.ltb_spec (RollbackManager.max_history self)
                                (Z.of_nat (length (RollbackManager.rollback_points self) + 1))).
    + rewrite length_drop, length_app. cbn [length]. lia.
    + rewrite length_app. cbn [length]. lia.
  - destruct (Z.ltb_spec (RollbackManager.max_history self)
                (Z.of_nat (length (RollbackManager.rollback_points self) + 1)));
      [ done | lia ].
  - destruct (Z.ltb_spec (RollbackManager.max_history self)
                (Z.of_nat (length (RollbackManager.rollback_points self) + 1)));
      [ | lia ].
    rewrite length_drop, length_app. cbn [length]. lia.
  - intros HK. destruct (Z.ltb_spec (RollbackManager.max_history self)
                (Z.of_nat (length (RollbackManager.rollback_points self) + 1)));
      [ lia | done ].
  - intros oldest rest Heq Hasc. rewrite Heq in *. by apply py_min_ascending.
  - intros path i self1 w1 Himp. unfold RollbackManager.import_checkpoint in Himp.
    destruct (rbind (json_load w path) _) as [ [[[[i' ts] desc] snap] md] | e ];
      [ | done ].
    cbn in Himp. injection Himp as <- <- <-.
    by eexists (RollbackPoint.mk i' ts desc _ _).
Qed.

Lemma C2_witness :
  (Z.of_nat (length (RollbackManager.rollback_points
                       (snd (fst (RollbackManager.create_checkpoint
                                    (snd (fst examples.single_after_init))
                                    (snd examples.single_after_init)
                                    examples.t1 examples.t1 (VStr "update") 1%nat None)))))
   <= 1)%Z.
Proof.
  destruct (C2_bound_after_create_fifo_by_insertion
              (snd (fst examples.single_after_init)) (snd examples.single_after_init)
              examples.t1 examples.t1 (VStr "update") 1 None
              eq_refl eq_refl) as (new & _ & _ & Hbound & _).
  apply Hbound; vm_compute; discriminate.
Defined.

(** C2, as stated, fails.  A store with [max_history] 1 and [auto_cleanup]
    on holds one checkpoint; a successful [import_checkpoint] leaves two
    entries.  The next [create_checkpoint] then evicts the entry inserted
    first, although the imported entry has the lower timestamp. *)
Lemma C2_counterexample :
  RollbackManager.auto_cleanup (snd (fst examples.single_after_init)) = true
  /\ RollbackManager.max_history (snd (fst examples.single_after_init)) = 1%Z
  /\ length (RollbackManager.rollback_points (snd (fst examples.single_after_init))) = 1
  /\ fst (fst examples.single_after_import) = Some (VStr "old")
  /\ ~ (Z.of_nat (length (RollbackManager.rollback_points
                            (snd (fst examples.single_after_import)))) <= 1)%Z
  /\ map RollbackPoint.id
         (RollbackManager.rollback_points (snd (fst examples.single_after_import)))
     = [VStr "checkpoint_0_20240115_103000"; VStr "old"]
  /\ map RollbackPoint.id
         (RollbackManager.rollback_points (snd (fst examples.single_after_update)))
     = [VStr "old"; VStr "checkpoint_1_20240115_103001"]
  /\ py_min RollbackPoint.timestamp
            (RollbackManager.rollback_points (snd (fst examples.single_after_import)))
     = nth_error (RollbackManager.rollback_points (snd (fst examples.single_after_import))) 1.
Proof.
  repeat split; try (vm_compute; reflexivity).
  intros H. vm_compute in H. by apply H.
Qed.

(** ** Restore *)

Section restore_facts.
Import RollbackManager.
Import datetime_facts.

(** An enabled restore by id of an entry that is found: the result is a
    reference to a new object, a copy of the stored state; the history is
    untouched. *)
Lemma rollback_to_checkpoint_found (self : t) (w : world) (i : pyval)
    (cp : RollbackPoint.t) :
  enabled self = true ->
  find_checkpoint (rollback_points self) i = Some cp ->
  rollback_to_checkpoint self w i
  = (Some (length (heap w)), restored self (length (heap w)),
     snd (alloc w (payload w cp))).
Proof.
  intros He Hf. unfold rollback_to_checkpoint. rewrite Hf.
  replace (negb (enabled self)) with false by (by rewrite He).
  unfold deepcopy, alloc, restored, payload. reflexivity.
Qed.

Lemma rollback_to_checkpoint_disabled (self : t) (w : world) (i : pyval) :
  enabled self = false -> rollback_to_checkpoint self w i = (None, self, w).
Proof. intros He. unfold rollback_to_checkpoint. by rewrite He. Qed.



End restore_facts.







(** ** Export and validation *)

Section export_facts.
Import RollbackManager.








End export_facts.







(** ** Round trip *)





(** ** Snapshot isolation *)

Section isolation_facts.
Import RollbackManager.



(** Egress by restore: the object returned by [rollback_to_checkpoint]
    is new, so a later mutation of it does not reach the stored state. *)
Lemma rollback_to_checkpoint_returns_copy (self : t) (w : world) (i : pyval)
    (cp : RollbackPoint.t) (v : pyval) :
  enabled self = true ->
  refs_valid self w ->
  find_checkpoint (rollback_points self) i = Some cp ->
  exists a w',
    rollback_to_checkpoint self w i = (Some a, restored self a, w')
    /\ deref w' a = payload w cp
    /\ payload (mutate w' a v) cp = payload w cp.
Proof.
  intros He [Hrefs _] Hf.
  exists (length (heap w)), (snd (alloc w (payload w cp))).
  split; [ by apply rollback_to_checkpoint_found | ].
  split; [ apply deref_alloc_new | ].
  apply find_checkpoint_elem in Hf as [Hin _].
  rewrite Forall_forall in Hrefs. destruct (Hrefs cp Hin) as [Hlt _].
  unfold payload. rewrite deref_mutate_other by lia.
  by apply deref_alloc_old.
Qed.

(** Egress by lookup: the dict [get_checkpoint] returns holds the stored
    state and metadata objects themselves, so a mutation made through it
    is a mutation of the stored entry. *)
Lemma get_checkpoint_aliases (self : t) (w : world) (i : pyval)
    (d : RollbackPoint.dict) (v : pyval) :
  get_checkpoint self i = Some d ->
  exists cp,
    find_checkpoint (rollback_points self) i = Some cp
    /\ RollbackPoint.d_state_snapshot d = RollbackPoint.state_snapshot cp
    /\ RollbackPoint.d_metadata d = RollbackPoint.metadata cp
    /\ (RollbackPoint.state_snapshot cp < length (heap w) ->
        payload (mutate w (RollbackPoint.d_state_snapshot d) v) cp = v).
Proof.
  unfold get_checkpoint.
  destruct (find_checkpoint (rollback_points self) i) as [ cp | ]; [ | done ].
  intros [= <-]. exists cp. repeat split.
  intros Hlt. unfold payload. by apply deref_mutate_same.
Qed.
End isolation_facts.

(** C1 (the defect).  A store takes a checkpoint of [{"x": 1}]; the caller
    looks the checkpoint up with [get_checkpoint] and assigns
    [d["state_snapshot"]["x"] = 99] in the dict it got back.  The dict
    holds the stored state object itself: the stored payload is now
    [{"x": 99}], and that is what a restore returns.  The same happens
    through [get_checkpoint_history].  On the way in, the state is copied
    but the metadata is not: a checkpoint taken with a metadata dict stores
    that very dict, and the caller's later assignment to it shows in the
    stored entry. *)
Theorem C1_lookup_exposes_the_stored_state :
  RollbackManager.rollback_points (snd (fst examples.tick_first))
  = [examples.first_entry "init"]
  /\ payload (snd examples.tick_first) (examples.first_entry "init")
     = VDict [(VStr "x", VInt 1)]
  /\ payload examples.tampered (examples.first_entry "init")
     = VDict [(VStr "x", VInt 99)]
  /\ payload examples.tampered_history (examples.first_entry "init")
     = VDict [(VStr "x", VInt 99)]
  /\ map RollbackPoint.metadata
         (RollbackManager.rollback_points (snd (fst examples.with_metadata))) = [5]
  /\ map (fun cp => deref (snd examples.with_metadata) (RollbackPoint.metadata cp))
         (RollbackManager.rollback_points (snd (fst examples.with_metadata)))
     = [VDict [(VStr "reason", VStr "manual")]]
  /\ map (fun cp => deref examples.metadata_edited (RollbackPoint.metadata cp))
         (RollbackManager.rollback_points (snd (fst examples.with_metadata)))
     = [VDict [(VStr "reason", VStr "edited")]]
  /\ exists a,
       fst (fst (RollbackManager.rollback_to_checkpoint
                   (snd (fst examples.tick_first)) examples.tampered
                   (fst (fst examples.tick_first)))) = Some a
       /\ deref (snd (RollbackManager.rollback_to_checkpoint
                        (snd (fst examples.tick_first)) examples.tampered
                        (fst (fst examples.tick_first)))) a
          = VDict [(VStr "x", VInt 99)].
Proof.
  repeat split; try (vm_compute; reflexivity).
  eexists. split; vm_compute; reflexivity.
Qed.

(** ** Reachable states

    [refs_valid] holds of a new manager and is kept by every call: the
    statements above that assume it speak of every state a caller can
    reach. *)

Section reachable_facts.
Import RollbackManager.

Lemma refs_valid_init (cfg : config) (w : world) :
  refs_valid (fst (init cfg w)) (snd (init cfg w)).
Proof.
  unfold init, alloc, refs_valid. cbn [fst snd rollback_points current_state heap].
  split; [ constructor | ]. rewrite length_app. simpl. lia.
Qed.

Lemma points_valid_grow (points : list RollbackPoint.t) (n m : nat) :
  n <= m ->
  Forall (fun cp => RollbackPoint.state_snapshot cp < n
                    /\ RollbackPoint.metadata cp < n) points ->
  Forall (fun cp => RollbackPoint.state_snapshot cp < m
                    /\ RollbackPoint.metadata cp < m) points.
Proof.
  intros Hle H. eapply Forall_impl; [ exact H | ]. intros cp [? ?]. lia.
Qed.

Lemma create_checkpoint_refs_valid (self : t) (w : world)
    (now_id now_ts : datetime.t) (description : pyval) (state : addr)
    (metadata : option addr) :
  refs_valid self w ->
  match metadata with Some m => m < length (heap w) | None => True end ->
  refs_valid
    (snd (fst (create_checkpoint self w now_id now_ts description state metadata)))
    (snd (create_checkpoint self w now_id now_ts description state metadata)).
Proof.
  intros [Hpts Hcur] Hmd. unfold create_checkpoint, deepcopy, alloc.
  destruct (negb (enabled self)); [ by split | ].
  destruct metadata as [ m | ]; [ destruct (truthy _) | ];
    unfold refs_valid; cbn [fst snd rollback_points current_state heap];
    (split; [ | rewrite !length_app; simpl; lia ]);
    match goal with |- Forall _ (if ?b then _ else _) => destruct b end;
    try apply Forall_drop; apply Forall_app;
    (split; [ eapply points_valid_grow; [ | exact Hpts ];
              rewrite !length_app; simpl; lia
            | repeat constructor;
              cbn [RollbackPoint.state_snapshot RollbackPoint.metadata];
              rewrite !length_app; simpl; lia ]).
Qed.

Lemma rollback_to_checkpoint_refs_valid (self : t) (w : world) (i : pyval) :
  refs_valid self w ->
  refs_valid (snd (fst (rollback_to_checkpoint self w i)))
             (snd (rollback_to_checkpoint self w i)).
Proof.
  intros [Hpts Hcur]. unfold rollback_to_checkpoint, deepcopy, alloc.
  destruct (negb (enabled self)); [ by split | ].
  destruct (find_checkpoint (rollback_points self) i); [ | by split ].
  cbn [fst snd]. unfold refs_valid. cbn [rollback_points current_state heap].
  rewrite length_app. simpl. split; [ | lia ].
  eapply points_valid_grow; [ | exact Hpts ]. lia.
Qed.

Lemma import_checkpoint_refs_valid (self : t) (w : world) (path : string) :
  refs_valid self w ->
  refs_valid (snd (fst (import_checkpoint self w path)))
             (snd (import_checkpoint self w path)).
Proof.
  intros [Hpts Hcur]. unfold import_checkpoint, alloc.
  destruct (rbind (json_load w path) _) as [ [[[[i ts] desc] snap] md] | e ];
    [ | by split ].
  cbn [fst snd]. unfold refs_valid. cbn [rollback_points current_state heap].
  rewrite !length_app. simpl. split; [ | lia ].
  apply Forall_app. split.
  - eapply points_valid_grow; [ | exact Hpts ]. lia.
  - repeat constructor; cbn [RollbackPoint.state_snapshot RollbackPoint.metadata]; lia.
Qed.

(** One call keeps the references valid. *)
Lemma step_refs_valid (c : call) (s : t * world) :
  refs_valid (fst s) (snd s) -> call_ok (snd s) c ->
  refs_valid (fst (snd (step c s))) (snd (snd (step c s))).
Proof.
  destruct s as [self w]. cbn [fst snd]. intros Hv Hc.
  destruct c; cbn [step call_ok] in *.
  - pose proof (create_checkpoint_refs_valid self w now_id now_ts description state
                  metadata Hv (proj2 Hc)) as H.
    by destruct (create_checkpoint self w now_id now_ts description state metadata)
      as [[r self'] w'].
  - pose proof (rollback_to_checkpoint_refs_valid self w checkpoint_id Hv) as H.
    by destruct (rollback_to_checkpoint self w checkpoint_id) as [[r self'] w'].
  - assert (H : refs_valid (snd (fst (rollback_to_latest self w)))
                           (snd (rollback_to_latest self w))).
    { unfold rollback_to_latest. destruct (py_max _ _); [ | done ].
      by apply rollback_to_checkpoint_refs_valid. }
    by destruct (rollback_to_latest self w) as [[r self'] w'].
  - assert (H : refs_valid (snd (fst (rollback_n_steps self w steps)))
                           (snd (rollback_n_steps self w steps))).
    { unfold rollback_n_steps. destruct (rollback_points self) eqn:E; [ done | ].
      rewrite <- E. destruct (_ || _); [ done | ]. destruct (_ !! _); [ | done ].
      by apply rollback_to_checkpoint_refs_valid. }
    by destruct (rollback_n_steps self w steps) as [[r self'] w'].
  - unfold delete_checkpoint. destruct (index_of _ _) as [ n | ]; [ | done ].
    cbn [fst snd]. destruct Hv as [Hpts Hcur]. split; [ | done ].
    cbn [rollback_points]. by apply Forall_delete.
  - destruct Hv as [Hpts Hcur]. unfold clear_history.
    destruct (deref w (current_state self)); cbn [fst snd];
      (split; [ constructor | ]); cbn [current_state]; try done;
      unfold mutate; cbn [heap]; by rewrite length_insert.
  - unfold export_checkpoint. destruct (get_checkpoint _ _); [ | done ].
    destruct (bool_decide _); [ done | ].
    by destruct (json_encode true _).
  - pose proof (import_checkpoint_refs_valid self w file_path Hv) as H.
    by destruct (import_checkpoint self w file_path) as [[r self'] w'].
  - destruct Hv as [Hpts Hcur]. unfold alloc. cbn [fst snd].
    unfold refs_valid. cbn [heap]. rewrite length_app. simpl.
    split; [ | lia ]. eapply points_valid_grow; [ | exact Hpts ]. lia.
  - destruct Hv as [Hpts Hcur]. unfold mutate, refs_valid. cbn [fst snd heap].
    by rewrite length_insert.
Qed.

(** Every state reached from a valid one by calls with valid references
    is valid. *)
Lemma run_refs_valid (cs : list call) (s : t * world) :
  refs_valid (fst s) (snd s) -> calls_ok cs s ->
  refs_valid (fst (snd (run cs s))) (snd (snd (run cs s))).
Proof.
  revert s. induction cs as [ | c cs IH ]; intros s Hv Hok; [ done | ].
  destruct Hok as [Hc Hrest]. cbn [run].
  pose proof (step_refs_valid c s Hv Hc) as Hv'.
  specialize (IH (snd (step c s)) Hv' Hrest).
  destruct (step c s) as [r s']. cbn [snd] in *.
  by destruct (run cs s') as [ids s''].
Qed.

End reachable_facts.

(** ** Histories in timestamp order

    A history built by [create_checkpoint] alone, under a clock that does
    not go back, is in timestamp order, and stays so through evictions. *)

Section ascending_facts.
Import RollbackManager.

Lemma ascending_snoc {A} (key : A -> datetime.t) (l : list A) (x : A) :
  ascending key l ->
  Forall (fun y => datetime.leb (key y) (key x) = true) l ->
  ascending key (l ++ [x]).
Proof.
  unfold ascending. induction 1 as [ | y l Hl IH Hy ]; intros Hx; simpl.
  - repeat constructor.
  - inversion Hx as [ | ? ? Hyx Hrest ]; subst.
    constructor; [ by apply IH | ].
    apply Forall_app. split; [ exact Hy | by repeat constructor ].
Qed.

Lemma ascending_tail {A} (key : A -> datetime.t) (l : list A) :
  ascending key l -> ascending key (drop 1 l).
Proof.
  unfold ascending. intros H. destruct l as [ | x l ]; [ done | ].
  simpl. rewrite drop_0. by inversion H.
Qed.

Lemma create_checkpoint_ascending (self : t) (w : world)
    (now_id now_ts : datetime.t) (description : pyval) (state : addr)
    (metadata : option addr) :
  enabled self = true ->
  ascending RollbackPoint.timestamp (rollback_points self) ->
  Forall (fun cp => datetime.leb (RollbackPoint.timestamp cp) now_ts = true)
         (rollback_points self) ->
  ascending RollbackPoint.timestamp
    (rollback_points
       (snd (fst (create_checkpoint self w now_id now_ts description state metadata)))).
Proof.
  intros He Hasc Hclock.
  destruct (create_checkpoint_points self w now_id now_ts description state metadata He)
    as (new & _ & Hts & _ & ->).
  assert (H : ascending RollbackPoint.timestamp (rollback_points self ++ [new])).
  { apply ascending_snoc; [ done | ]. by rewrite Hts. }
  destruct (_ && _); [ by apply ascending_tail | done ].
Qed.

End ascending_facts.

(** * Further properties of the manager *)

(** ** Deletion *)

Section delete_facts.
Import RollbackManager.

Lemma with_history_same (self : t) : with_history self (rollback_points self) = self.
Proof. by destruct self. Qed.

Lemma index_of_None (points : list RollbackPoint.t) (i : pyval) :
  find_checkpoint points i = None -> index_of points i = None.
Proof.
  unfold find_checkpoint. induction points as [ | cp l IH ]; simpl; [ done | ].
  destruct (py_eqb (RollbackPoint.id cp) i); [ done | ].
  intros H. by rewrite IH.
Qed.

(** The entry found by id splits the history: nothing before it bears
    the id, and [index_of] is its position. *)
Lemma find_checkpoint_split (points : list RollbackPoint.t) (i : pyval)
    (cp : RollbackPoint.t) :
  find_checkpoint points i = Some cp ->
  exists before after,
    points = before ++ cp :: after
    /\ Forall (fun c => py_eqb (RollbackPoint.id c) i = false) before
    /\ py_eqb (RollbackPoint.id cp) i = true
    /\ index_of points i = Some (length before)
    /\ delete (length before) points = before ++ after.
Proof.
  unfold find_checkpoint. induction points as [ | c l IH ]; simpl; [ done | ].
  destruct (py_eqb (RollbackPoint.id c) i) eqn:E.
  - intros [= <-]. by exists [], l.
  - intros H. destruct (IH H) as (before & after & -> & Hb & Hm & Hi & Hd).
    exists (c :: before), after. simpl. rewrite Hi. simpl.
    repeat split; try done; [ by constructor | by rewrite Hd ].
Qed.

Lemma find_checkpoint_app_None (l1 l2 : list RollbackPoint.t) (i : pyval) :
  Forall (fun c => py_eqb (RollbackPoint.id c) i = false) l1 ->
  find_checkpoint (l1 ++ l2) i = find_checkpoint l2 i.
Proof.
  unfold find_checkpoint. induction 1 as [ | c l Hc _ IH ]; simpl; [ done | ].
  by rewrite Hc.
Qed.

Lemma find_checkpoint_None_Forall (l : list RollbackPoint.t) (i : pyval) :
  find_checkpoint l i = None <->
  Forall (fun c => py_eqb (RollbackPoint.id c) i = false) l.
Proof.
  unfold find_checkpoint. induction l as [ | c l IH ]; simpl.
  - split; [ constructor | done ].
  - destruct (py_eqb (RollbackPoint.id c) i) eqn:E.
    + split; [ done | ]. intros H. inversion H; subst. congruence.
    + rewrite IH. split; [ by constructor | ]. intros H. by inversion H.
Qed.

(** Removing an entry that does not bear [j] does not change what a
    lookup of [j] finds. *)
Lemma find_checkpoint_remove_other (before after : list RollbackPoint.t)
    (cp : RollbackPoint.t) (j : pyval) :
  py_eqb (RollbackPoint.id cp) j = false ->
  find_checkpoint (before ++ after) j = find_checkpoint (before ++ cp :: after) j.
Proof.
  intros Hcp. unfold find_checkpoint.
  induction before as [ | c l IH ]; simpl; [ by rewrite Hcp | ].
  by destruct (py_eqb (RollbackPoint.id c) j).
Qed.

Lemma ids_distinct_app (l1 l2 : list RollbackPoint.t) :
  ids_distinct (l1 ++ l2) = true ->
  ids_distinct l1 = true /\ ids_distinct l2 = true
  /\ Forall (fun a => Forall (fun b => py_eqb (RollbackPoint.id a) (RollbackPoint.id b)
                                       = false) l2) l1.
Proof.
  induction l1 as [ | a l1 IH ]; simpl; [ by repeat split | ].
  rewrite !andb_true_iff, forallb_app, andb_true_iff.
  intros [[Ha1 Ha2] Hrest]. destruct (IH Hrest) as (H1 & H2 & H12).
  repeat split; try done. constructor; [ | done ].
  rewrite forallb_forall in Ha2. apply Forall_forall. intros b Hb.
  apply negb_true_iff, Ha2. by apply list_elem_of_In.
Qed.

Lemma ids_distinct_remove (before after : list RollbackPoint.t) (cp : RollbackPoint.t) :
  ids_distinct (before ++ cp :: after) = true -> ids_distinct (before ++ after) = true.
Proof.
  induction before as [ | a l IH ]; simpl.
  - rewrite andb_true_iff. tauto.
  - rewrite !andb_true_iff, !forallb_app. simpl. rewrite !andb_true_iff.
    intros [(H1 & _ & H2) Hrest]. split; [ by split | by apply IH ].
Qed.

Lemma delete_checkpoint_found (self : t) (i : pyval) (cp : RollbackPoint.t) :
  find_checkpoint (rollback_points self) i = Some cp ->
  exists before after,
    rollback_points self = before ++ cp :: after
    /\ Forall (fun c => py_eqb (RollbackPoint.id c) i = false) before
    /\ delete_checkpoint self i = (true, with_history self (before ++ after)).
Proof.
  intros E.
  destruct (find_checkpoint_split _ _ _ E) as (before & after & Hs & Hb & _ & Hi & Hd).
  exists before, after. split; [ done | ]. split; [ done | ].
  unfold delete_checkpoint. by rewrite Hi, Hd.
Qed.

Lemma delete_checkpoint_not_found (self : t) (i : pyval) :
  find_checkpoint (rollback_points self) i = None ->
  delete_checkpoint self i = (false, self).
Proof. intros E. unfold delete_checkpoint. by rewrite (index_of_None _ _ E). Qed.

End delete_facts.

(** X1. [delete_checkpoint(id)] returns false and changes nothing when no
    entry bears the id.  Otherwise it returns true and removes exactly
    one entry, the first one bearing the id: the entries before and after
    it stay, in their order, and nothing else of the manager changes
    (the current state and both counters are kept).  The manager need not
    be enabled. *)
Theorem X1_delete_checkpoint_removes_first_match
    (self : RollbackManager.t) (i : pyval) :
  match RollbackManager.find_checkpoint (RollbackManager.rollback_points self) i with
  | None => RollbackManager.delete_checkpoint self i = (false, self)
  | Some cp =>
      exists before after,
        RollbackManager.rollback_points self = before ++ cp :: after
        /\ Forall (fun c => py_eqb (RollbackPoint.id c) i = false) before
        /\ RollbackManager.delete_checkpoint self i
           = (true, with_history self (before ++ after))
  end.
Proof.
  destruct (RollbackManager.find_checkpoint _ i) as [ cp | ] eqn:E.
  - by apply delete_checkpoint_found.
  - by apply delete_checkpoint_not_found.
Qed.

(** X2. On a history whose ids are pairwise distinct strings, after
    [delete_checkpoint(id)] succeeded a lookup of that id finds nothing
    ([get_checkpoint] returns none and an enabled [rollback_to_checkpoint]
    returns none, changing nothing), a lookup of any other id finds what
    it found before, and the ids are still pairwise distinct. *)
Theorem X2_deleted_id_is_gone_others_stay
    (self : RollbackManager.t) (w : world) (i : pyval) (cp : RollbackPoint.t) :
  string_ids (RollbackManager.rollback_points self) ->
  ids_distinct (RollbackManager.rollback_points self) = true ->
  RollbackManager.find_checkpoint (RollbackManager.rollback_points self) i = Some cp ->
  let self' := snd (RollbackManager.delete_checkpoint self i) in
  fst (RollbackManager.delete_checkpoint self i) = true
  /\ RollbackManager.get_checkpoint self' i = None
  /\ RollbackManager.rollback_to_checkpoint self' w i = (None, self', w)
  /\ (forall j, py_eqb (RollbackPoint.id cp) j = false ->
        RollbackManager.get_checkpoint self' j = RollbackManager.get_checkpoint self j)
  /\ ids_distinct (RollbackManager.rollback_points self') = true
  /\ length (RollbackManager.rollback_points self')
     = length (RollbackManager.rollback_points self) - 1.
Proof.
  intros Hstr Hd Hf. cbv zeta.
  destruct (delete_checkpoint_found self i cp Hf) as (before & after & Hs & Hb & Hdel).
  rewrite Hdel. cbn [fst snd].
  assert (Hnone : RollbackManager.find_checkpoint (before ++ after) i = None).
  { rewrite find_checkpoint_app_None by done.
    apply find_checkpoint_None_Forall.
    rewrite Hs in Hd, Hstr.
    destruct (ids_distinct_app _ _ Hd) as (_ & Hd2 & _).
    simpl in Hd2. apply andb_true_iff in Hd2 as [Hcp _].
    rewrite forallb_forall in Hcp.
    apply Forall_app in Hstr as [_ Hstr].
    inversion Hstr as [ | ? ? [s Hids] Hafter ]; subst.
    apply find_checkpoint_elem in Hf as [_ Hm]. rewrite Hids in Hm.
    destruct i as [ | | | t | | | | ]; try done.
    apply py_eqb_str in Hm as <-.
    apply Forall_forall. intros c Hc.
    rewrite Forall_forall in Hafter. destruct (Hafter c Hc) as [u Hu].
    specialize (Hcp c (proj1 (list_elem_of_In _ _) Hc)).
    rewrite Hids, Hu in Hcp. rewrite Hu. simpl in *.
    apply negb_true_iff in Hcp. rewrite String.eqb_sym. exact Hcp. }
  split; [ done | ].
  split; [ unfold RollbackManager.get_checkpoint; cbn [with_history
             RollbackManager.rollback_points]; by rewrite Hnone | ].
  split.
  { unfold RollbackManager.rollback_to_checkpoint.
    cbn [with_history RollbackManager.rollback_points RollbackManager.enabled].
    rewrite Hnone. by destruct (negb (RollbackManager.enabled self)). }
  split.
  { intros j Hj. unfold RollbackManager.get_checkpoint.
    cbn [with_history RollbackManager.rollback_points].
    by rewrite Hs, (find_checkpoint_remove_other before after cp j Hj). }
  split.
  { cbn [with_history RollbackManager.rollback_points].
    rewrite Hs in Hd. by eapply ids_distinct_remove. }
  cbn [with_history RollbackManager.rollback_points].
  rewrite Hs, !length_app. simpl. lia.
Qed.

Lemma X2_witness :
  RollbackManager.get_checkpoint
    (snd (RollbackManager.delete_checkpoint
            (snd (fst examples.later_second))
            (RollbackPoint.id (examples.first_entry "init"))))
    (RollbackPoint.id (examples.first_entry "init")) = None.
Proof.
  assert (Hstr : string_ids (RollbackManager.rollback_points
                               (snd (fst examples.later_second)))).
  { repeat constructor; eexists; reflexivity. }
  assert (Hf : RollbackManager.find_checkpoint
                 (RollbackManager.rollback_points (snd (fst examples.later_second)))
                 (RollbackPoint.id (examples.first_entry "init"))
               = Some (examples.first_entry "init")) by (vm_compute; reflexivity).
  exact (proj1 (proj2 (X2_deleted_id_is_gone_others_stay
                         (snd (fst examples.later_second)) (snd examples.later_second)
                         _ _ Hstr eq_refl Hf))).
Defined.

(** ** More on import and export *)

Section transfer_facts.
Import RollbackManager.

Lemma index_of_middle (l1 l2 : list RollbackPoint.t) (cp : RollbackPoint.t) (i : pyval) :
  Forall (fun c => py_eqb (RollbackPoint.id c) i = false) l1 ->
  py_eqb (RollbackPoint.id cp) i = true ->
  index_of (l1 ++ cp :: l2) i = Some (length l1).
Proof.
  intros H Hcp. induction H as [ | c l Hc _ IH ]; simpl; [ by rewrite Hcp | ].
  by rewrite Hc, IH.
Qed.

Lemma dict_has_get (d : list (pyval * pyval)) (k : pyval) :
  dict_has d k = true -> exists v, dict_get d k = Some v.
Proof. unfold dict_has. destruct (dict_get d k) as [ v | ]; [ by exists v | done ]. Qed.

(** What [read_checkpoint] needs to return normally. *)
Lemma read_checkpoint_Ok (v i desc snap md : pyval) (ts : datetime.t) :
  read_checkpoint v = Ok (i, ts, desc, snap, md) ->
  exists d s,
    v = VDict d
    /\ dict_get d (VStr "id") = Some i
    /\ dict_get d (VStr "timestamp") = Some (VStr s)
    /\ datetime.fromisoformat s = Some ts
    /\ dict_get d (VStr "description") = Some desc
    /\ dict_get d (VStr "state_snapshot") = Some snap
    /\ md = default (VDict []) (dict_get d (VStr "metadata")).
Proof.
  destruct v as [ | | | | | | d | ]; try done. cbn [read_checkpoint].
  destruct (forallb _ required_keys) eqn:Hall; [ | done ].
  unfold required_keys in Hall. cbn [forallb] in Hall.
  repeat (apply andb_true_iff in Hall as [? Hall]).
  unfold getitem.
  destruct (dict_get d (VStr "id")) as [ i' | ] eqn:Hid; [ | done ]. cbn [rbind].
  destruct (dict_get d (VStr "timestamp")) as [ t' | ] eqn:Hts; [ | done ]. cbn [rbind].
  destruct t' as [ | | | s | | | | ]; try done.
  destruct (datetime.fromisoformat s) as [ ts' | ] eqn:Hp; [ | done ]. cbn [rbind].
  destruct (dict_get d (VStr "description")) as [ desc' | ] eqn:Hdesc; [ | done ].
  cbn [rbind].
  destruct (dict_get d (VStr "state_snapshot")) as [ snap' | ] eqn:Hsnap; [ | done ].
  cbn [rbind].
  intros [= <- <- <- <- <-]. by exists d, s.
Qed.

(** What a successful import read from the file. *)
Lemma import_checkpoint_Some (self : t) (w : world) (path : string) (i : pyval) :
  fst (fst (import_checkpoint self w path)) = Some i ->
  exists d s ts desc snap,
    json_load w path = Ok (VDict d)
    /\ dict_get d (VStr "id") = Some i
    /\ dict_get d (VStr "timestamp") = Some (VStr s)
    /\ datetime.fromisoformat s = Some ts
    /\ dict_get d (VStr "description") = Some desc
    /\ dict_get d (VStr "state_snapshot") = Some snap.
Proof.
  unfold import_checkpoint.
  destruct (json_load w path) as [ v | e ] eqn:Hload; [ | done ]. cbn [rbind].
  destruct (read_checkpoint v) as [ [[[[i' ts] desc] snap] md] | e ] eqn:Hread;
    [ | done ].
  cbn. intros [= <-].
  destruct (read_checkpoint_Ok _ _ _ _ _ _ Hread)
    as (d & s & -> & Hid & Hts & Hp & Hdesc & Hsnap & _).
  by exists d, s, ts, desc, snap.
Qed.

Lemma ids_distinct_twice (l : list RollbackPoint.t) (a b : RollbackPoint.t) :
  py_eqb (RollbackPoint.id a) (RollbackPoint.id b) = true ->
  ids_distinct (l ++ [a; b]) = false.
Proof.
  intros Hab. apply not_true_is_false. intros Hd.
  destruct (ids_distinct_app _ _ Hd) as (_ & Hd2 & _).
  simpl in Hd2. by rewrite Hab in Hd2.
Qed.

End transfer_facts.

(** X3. An import followed by a deletion of the imported id undoes the
    import: when no entry of the history bore that id before, the manager
    after [import_checkpoint] then [delete_checkpoint] is the manager
    before both. *)
Theorem X3_import_then_delete_restores_the_manager
    (self self1 : RollbackManager.t) (w w1 : world) (path : string) (i : pyval) :
  RollbackManager.import_checkpoint self w path = (Some i, self1, w1) ->
  RollbackManager.find_checkpoint (RollbackManager.rollback_points self) i = None ->
  RollbackManager.delete_checkpoint self1 i = (true, self).
Proof.
  intros Himp Hnone. unfold RollbackManager.import_checkpoint in Himp.
  destruct (rbind (json_load w path) _) as [ [[[[i' ts] desc] snap] md] | e ];
    [ | done ].
  cbn in Himp. injection Himp as <- <- <-.
  unfold RollbackManager.delete_checkpoint. cbn [RollbackManager.rollback_points].
  rewrite index_of_middle;
    [ | by apply find_checkpoint_None_Forall | apply py_eqb_refl ].
  rewrite delete_middle, app_nil_r. by destruct self.
Qed.

Lemma X3_witness :
  RollbackManager.delete_checkpoint
    (snd (fst examples.default_after_import)) (VStr "old")
  = (true, fst examples.default_store).
Proof.
  apply (X3_import_then_delete_restores_the_manager
           (fst examples.default_store) _ (snd examples.default_store)
           (snd examples.default_after_import) "old.json").
  - vm_compute. reflexivity.
  - vm_compute. reflexivity.
Defined.


(** X5. [import_checkpoint] does not look for the id in the history:
    importing a file that was just imported succeeds again with the same
    id, and the history then ends in two entries bearing that id, so its
    ids are no longer pairwise distinct. *)
Theorem X5_import_twice_duplicates_the_id
    (self self1 : RollbackManager.t) (w w1 : world) (path : string) (i : pyval) :
  RollbackManager.import_checkpoint self w path = (Some i, self1, w1) ->
  exists self2 w2 cp1 cp2,
    RollbackManager.import_checkpoint self1 w1 path = (Some i, self2, w2)
    /\ RollbackManager.rollback_points self2
       = RollbackManager.rollback_points self ++ [cp1; cp2]
    /\ RollbackPoint.id cp1 = i /\ RollbackPoint.id cp2 = i
    /\ ids_distinct (RollbackManager.rollback_points self2) = false.
Proof.
  intros Himp.
  destruct (import_checkpoint_Some self w path i)
    as (d & s & ts & desc & snap & Hload & Hid & Hts & Hp & Hdesc & Hsnap).
  { by rewrite Himp. }
  rewrite (import_checkpoint_success self w path d i s ts desc snap) in Himp by done.
  injection Himp as <- <-.
  eexists _, _, _, _. split.
  { apply (import_checkpoint_success _ _ path d i s ts desc snap); done. }
  cbn [RollbackManager.rollback_points]. split; [ by rewrite <- app_assoc | ].
  split; [ done | ]. split; [ done | ].
  rewrite <- app_assoc. apply ids_distinct_twice. apply py_eqb_refl.
Qed.

Lemma X5_witness :
  exists self2 w2 cp1 cp2,
    RollbackManager.import_checkpoint
      (snd (fst examples.default_after_import)) (snd examples.default_after_import)
      "old.json" = (Some (VStr "old"), self2, w2)
    /\ RollbackManager.rollback_points self2
       = RollbackManager.rollback_points (fst examples.default_store) ++ [cp1; cp2]
    /\ RollbackPoint.id cp1 = VStr "old" /\ RollbackPoint.id cp2 = VStr "old"
    /\ ids_distinct (RollbackManager.rollback_points self2) = false.
Proof.
  apply (X5_import_twice_duplicates_the_id
           (fst examples.default_store) _ (snd examples.default_store) _ "old.json").
  vm_compute. reflexivity.
Defined.

(** X6. A failed export is not harmless.  When the id is found and the
    file can be opened but some dict key of the record cannot be encoded,
    [export_checkpoint] returns false after the file was opened for
    writing: whatever the file held is gone, and an [import_checkpoint] of
    that path fails.  When the id is not found or the file cannot be
    opened, nothing at all changes.  In no case are the objects or the
    other files touched. *)
Theorem X6_failed_export_clobbers_the_file
    (self other : RollbackManager.t) (w : world) (i : pyval) (path : string) :
  fst (RollbackManager.export_checkpoint self w i path) = false ->
  let w' := snd (RollbackManager.export_checkpoint self w i path) in
  heap w' = heap w
  /\ (forall p, p <> path -> files w' !! p = files w !! p)
  /\ match RollbackManager.find_checkpoint (RollbackManager.rollback_points self) i with
     | None => w' = w
     | Some cp =>
         if bool_decide (path ∈ unwritable w) then w' = w
         else files w' !! path = Some FileOther
              /\ RollbackManager.import_checkpoint other w' path = (None, other, w')
     end.
Proof.
  unfold RollbackManager.export_checkpoint, RollbackManager.get_checkpoint. cbv zeta.
  destruct (RollbackManager.find_checkpoint _ i) as [ cp | ];
    cbn [fmap option_fmap option_map]; [ | done ].
  destruct (bool_decide (path ∈ unwritable w)); [ done | ].
  destruct (json_encode true _) as [ doc | e ]; [ done | ].
  intros _. cbn [snd]. split; [ done | ].
  split; [ intros p Hp; unfold write_file; cbn [files]; by rewrite lookup_insert_ne | ].
  assert (Hf : files (write_file w path FileOther) !! path = Some FileOther).
  { unfold write_file. cbn [files]. apply lookup_insert_eq. }
  split; [ exact Hf | ].
  unfold RollbackManager.import_checkpoint, json_load. by rewrite Hf.
Qed.

Lemma X6_witness :
  files (snd (RollbackManager.export_checkpoint
                (snd (fst examples.with_tuple_key)) (snd examples.with_tuple_key)
                (RollbackPoint.id (examples.first_entry "key")) "old.json"))
    !! "old.json" = Some FileOther.
Proof.
  pose proof (X6_failed_export_clobbers_the_file
                (snd (fst examples.with_tuple_key)) (fst examples.default_store)
                (snd examples.with_tuple_key)
                (RollbackPoint.id (examples.first_entry "key")) "old.json") as H.
  assert (Hfalse : fst (RollbackManager.export_checkpoint
                          (snd (fst examples.with_tuple_key))
                          (snd examples.with_tuple_key)
                          (RollbackPoint.id (examples.first_entry "key")) "old.json")
                   = false) by (vm_compute; reflexivity).
  destruct (H Hfalse) as (_ & _ & Hmatch).
  assert (Hfind : RollbackManager.find_checkpoint
                    (RollbackManager.rollback_points (snd (fst examples.with_tuple_key)))
                    (RollbackPoint.id (examples.first_entry "key"))
                  = Some (examples.first_entry "key")) by (vm_compute; reflexivity).
  rewrite Hfind in Hmatch.
  rewrite bool_decide_eq_false_2 in Hmatch by apply not_elem_of_empty.
  exact (proj1 Hmatch).
Defined.

(** ** More on restore *)

Section restore_more_facts.
Import RollbackManager.

(** The manager and the id after an enabled [create_checkpoint]. *)
Lemma create_checkpoint_enabled (self : t) (w : world) (now_id now_ts : datetime.t)
    (description : pyval) (state : addr) (metadata : option addr) :
  enabled self = true ->
  fst (fst (create_checkpoint self w now_id now_ts description state metadata))
  = VStr (checkpoint_id_of (checkpoint_count self) now_id)
  /\ enabled (snd (fst (create_checkpoint self w now_id now_ts description state
                          metadata))) = true
  /\ checkpoint_count (snd (fst (create_checkpoint self w now_id now_ts description
                                   state metadata))) = S (checkpoint_count self)
  /\ rollback_count (snd (fst (create_checkpoint self w now_id now_ts description
                                 state metadata))) = rollback_count self.
Proof.
  intros He. unfold create_checkpoint, deepcopy, alloc.
  replace (negb (enabled self)) with false by (by rewrite He).
  by destruct metadata as [ m | ]; [ destruct (truthy _) | ]; cbn [fst snd].
Qed.


End restore_more_facts.


(** X8. [rollback_n_steps(1)] and [rollback_to_latest()] are the same
    operation on every store: the first item of the descending sort is the
    item [max] picks, so both restore by the same id (and both return
    none on an empty history). *)
Theorem X8_one_step_back_is_latest (self : RollbackManager.t) (w : world) :
  RollbackManager.rollback_n_steps self w 1 = RollbackManager.rollback_to_latest self w.
Proof.
  unfold RollbackManager.rollback_n_steps, RollbackManager.rollback_to_latest.
  rewrite <- head_py_sorted_reverse.
  destruct (RollbackManager.rollback_points self) as [ | cp l ] eqn:E; [ done | ].
  replace ((1 <=? 0)%Z || (Z.of_nat (length (cp :: l)) <? 1)%Z) with false
    by (symmetry; apply orb_false_iff; split;
        [ apply Z.leb_gt | apply Z.ltb_ge; simpl ]; lia).
  change (Z.to_nat (1 - 1)) with 0.
  by rewrite <- head_lookup.
Qed.

(** X9. The object a restore returns is the manager's current state
    itself, and [clear_history] empties the current state in place: after
    a successful [rollback_to_checkpoint] of a dict payload, a
    [clear_history] leaves the dict the caller received empty.  It also
    empties the history (so [rollback_to_latest] returns none) and keeps
    both counters. *)
Theorem X9_clear_history_empties_the_restored_dict
    (self : RollbackManager.t) (w : world) (i : pyval) (cp : RollbackPoint.t)
    (d : list (pyval * pyval)) :
  RollbackManager.enabled self = true ->
  RollbackManager.find_checkpoint (RollbackManager.rollback_points self) i = Some cp ->
  payload w cp = VDict d ->
  exists a self1 w1 self2 w2,
    RollbackManager.rollback_to_checkpoint self w i = (Some a, self1, w1)
    /\ deref w1 a = VDict d
    /\ RollbackManager.clear_history self1 w1 = (Ok tt, self2, w2)
    /\ deref w2 a = VDict []
    /\ RollbackManager.rollback_points self2 = []
    /\ RollbackManager.rollback_to_latest self2 w2 = (None, self2, w2)
    /\ RollbackManager.rollback_count self2 = S (RollbackManager.rollback_count self)
    /\ RollbackManager.checkpoint_count self2 = RollbackManager.checkpoint_count self.
Proof.
  intros He Hf Hp.
  eexists _, _, _, _, _.
  split; [ by apply rollback_to_checkpoint_found | ].
  assert (Hnew : deref (snd (alloc w (payload w cp))) (length (heap w)) = VDict d).
  { by rewrite deref_alloc_new. }
  split; [ exact Hnew | ].
  unfold RollbackManager.clear_history.
  cbn [restored RollbackManager.current_state]. rewrite Hnew.
  split; [ reflexivity | ].
  split.
  { apply deref_mutate_same. rewrite heap_alloc_length. lia. }
  done.
Qed.

Lemma X9_witness :
  exists a self1 w1 self2 w2,
    RollbackManager.rollback_to_checkpoint
      (snd (fst examples.tick_first)) (snd examples.tick_first)
      (fst (fst examples.tick_first)) = (Some a, self1, w1)
    /\ deref w1 a = VDict [(VStr "x", VInt 1)]
    /\ RollbackManager.clear_history self1 w1 = (Ok tt, self2, w2)
    /\ deref w2 a = VDict []
    /\ RollbackManager.rollback_points self2 = []
    /\ RollbackManager.rollback_to_latest self2 w2 = (None, self2, w2)
    /\ RollbackManager.rollback_count self2
       = S (RollbackManager.rollback_count (snd (fst examples.tick_first)))
    /\ RollbackManager.checkpoint_count self2
       = RollbackManager.checkpoint_count (snd (fst examples.tick_first)).
Proof.
  apply (X9_clear_history_empties_the_restored_dict
           (snd (fst examples.tick_first)) (snd examples.tick_first)
           (fst (fst examples.tick_first)) (examples.first_entry "init")).
  - reflexivity.
  - vm_compute. reflexivity.
  - vm_compute. reflexivity.
Defined.





(** ** Invariants of runs *)

Section run_facts.
Import RollbackManager.

(** No call changes the three configuration values. *)
Lemma rollback_to_checkpoint_config (self : t) (w : world) (i : pyval) :
  let self' := snd (fst (rollback_to_checkpoint self w i)) in
  enabled self' = enabled self /\ max_history self' = max_history self
  /\ auto_cleanup self' = auto_cleanup self
  /\ rollback_points self' = rollback_points self.
Proof.
  unfold rollback_to_checkpoint. destruct (negb (enabled self)); [ done | ].
  by destruct (find_checkpoint (rollback_points self) i).
Qed.

Lemma rollback_to_latest_config (self : t) (w : world) :
  let self' := snd (fst (rollback_to_latest self w)) in
  enabled self' = enabled self /\ max_history self' = max_history self
  /\ auto_cleanup self' = auto_cleanup self
  /\ rollback_points self' = rollback_points self.
Proof.
  unfold rollback_to_latest.
  destruct (py_max _ _); [ apply rollback_to_checkpoint_config | done ].
Qed.

Lemma rollback_n_steps_config (self : t) (w : world) (n : Z) :
  let self' := snd (fst (rollback_n_steps self w n)) in
  enabled self' = enabled self /\ max_history self' = max_history self
  /\ auto_cleanup self' = auto_cleanup self
  /\ rollback_points self' = rollback_points self.
Proof.
  unfold rollback_n_steps. destruct (rollback_points self) eqn:E; [ done | ].
  rewrite <- E. destruct (_ || _); [ done | ].
  destruct (_ !! _); [ apply rollback_to_checkpoint_config | done ].
Qed.

Lemma create_checkpoint_config (self : t) (w : world) (now_id now_ts : datetime.t)
    (description : pyval) (state : addr) (metadata : option addr) :
  let self' := snd (fst (create_checkpoint self w now_id now_ts description state
                           metadata)) in
  enabled self' = enabled self /\ max_history self' = max_history self
  /\ auto_cleanup self' = auto_cleanup self.
Proof.
  unfold create_checkpoint, deepcopy, alloc.
  destruct (negb (enabled self)); [ done | ].
  by destruct metadata as [ m | ]; [ destruct (truthy _) | ].
Qed.

Lemma step_config (c : call) (s : t * world) :
  let self' := fst (snd (step c s)) in
  enabled self' = enabled (fst s) /\ max_history self' = max_history (fst s)
  /\ auto_cleanup self' = auto_cleanup (fst s).
Proof.
  destruct s as [self w]. destruct c; cbn [step fst snd].
  - pose proof (create_checkpoint_config self w now_id now_ts description state metadata)
      as H. cbv zeta in H.
    by destruct (create_checkpoint self w now_id now_ts description state metadata)
      as [[r self'] w'].
  - pose proof (rollback_to_checkpoint_config self w checkpoint_id) as H. cbv zeta in H.
    destruct (rollback_to_checkpoint self w checkpoint_id) as [[r self'] w']. tauto.
  - pose proof (rollback_to_latest_config self w) as H. cbv zeta in H.
    destruct (rollback_to_latest self w) as [[r self'] w']. tauto.
  - pose proof (rollback_n_steps_config self w steps) as H. cbv zeta in H.
    destruct (rollback_n_steps self w steps) as [[r self'] w']. tauto.
  - unfold delete_checkpoint. by destruct (index_of _ _).
  - unfold clear_history. by destruct (deref w _).
  - done.
  - unfold import_checkpoint.
    by destruct (rbind (json_load w file_path) _) as [ [[[[i ts] desc] snap] md] | e ].
  - done.
  - done.
Qed.

(** The counter after one call. *)
Lemma step_count (c : call) (s : t * world) :
  checkpoint_count (fst (snd (step c s)))
  = checkpoint_count (fst s)
    + match fst (step c s) with
      | Some i => if is_sentinel i then 0 else 1
      | None => 0
      end.
Proof.
  destruct s as [self w]. destruct c; cbn [step fst snd].
  - pose proof (create_checkpoint_issue self w now_id now_ts description state metadata)
      as H. cbv zeta in H.
    destruct (create_checkpoint self w now_id now_ts description state metadata)
      as [[i self'] w']. cbn [fst snd] in *.
    destruct H as [[-> Hc] | [-> Hc]]; rewrite Hc.
    + simpl. lia.
    + rewrite checkpoint_id_of_not_sentinel. lia.
  - pose proof (rollback_to_checkpoint_count self w checkpoint_id) as H.
    destruct (rollback_to_checkpoint self w checkpoint_id) as [[r self'] w'].
    cbn [fst snd] in *. lia.
  - pose proof (rollback_to_latest_count self w) as H.
    destruct (rollback_to_latest self w) as [[r self'] w']. cbn [fst snd] in *. lia.
  - pose proof (rollback_n_steps_count self w steps) as H.
    destruct (rollback_n_steps self w steps) as [[r self'] w']. cbn [fst snd] in *. lia.
  - rewrite delete_checkpoint_count. lia.
  - pose proof (clear_history_count self w) as H.
    destruct (clear_history self w) as [[r self'] w']. cbn [fst snd] in *. lia.
  - lia.
  - pose proof (import_checkpoint_count self w file_path) as H.
    destruct (import_checkpoint self w file_path) as [[r self'] w'].
    cbn [fst snd] in *. lia.
  - lia.
  - lia.
Qed.

(** The length of the history after a call that is not an import: a
    history within the bound stays within it, and whatever the bound no
    call but a creation makes it longer. *)
Lemma step_length (c : call) (s : t * world) :
  not_import c = true ->
  (auto_cleanup (fst s) = true ->
   (0 <= max_history (fst s))%Z ->
   (Z.of_nat (length (rollback_points (fst s))) <= max_history (fst s))%Z ->
   (Z.of_nat (length (rollback_points (fst (snd (step c s))))) <= max_history (fst s))%Z)
  /\ (is_create c = false ->
      length (rollback_points (fst (snd (step c s)))) <= length (rollback_points (fst s))).
Proof.
  destruct s as [self w]. intros Hni. destruct c; try done; cbn [step fst snd is_create].
  - split; [ | done ]. intros Hac HK Hlen.
    destruct (enabled self) eqn:He.
    + destruct (create_checkpoint_points self w now_id now_ts description state
                  metadata He) as (new & _ & _ & _ & Hpts).
      destruct (create_checkpoint self w now_id now_ts description state metadata)
        as [[r self'] w']. cbn [fst snd] in *. rewrite Hpts, Hac. cbn [andb].
      rewrite length_app. cbn [length].
      destruct (Z.ltb_spec (max_history self)
                  (Z.of_nat (length (rollback_points self) + 1))).
      * rewrite length_drop, length_app. cbn [length]. lia.
      * rewrite length_app. cbn [length]. lia.
    + unfold create_checkpoint. by rewrite He.
  - pose proof (rollback_to_checkpoint_config self w checkpoint_id) as H. cbv zeta in H.
    destruct (rollback_to_checkpoint self w checkpoint_id) as [[r self'] w'].
    cbn [fst snd] in *. destruct H as (_ & _ & _ & ->). split; [ done | lia ].
  - pose proof (rollback_to_latest_config self w) as H. cbv zeta in H.
    destruct (rollback_to_latest self w) as [[r self'] w'].
    cbn [fst snd] in *. destruct H as (_ & _ & _ & ->). split; [ done | lia ].
  - pose proof (rollback_n_steps_config self w steps) as H. cbv zeta in H.
    destruct (rollback_n_steps self w steps) as [[r self'] w'].
    cbn [fst snd] in *. destruct H as (_ & _ & _ & ->). split; [ done | lia ].
  - assert (H : length (rollback_points (snd (delete_checkpoint self checkpoint_id)))
                <= length (rollback_points self)).
    { destruct (find_checkpoint (rollback_points self) checkpoint_id) as [ cp | ] eqn:E.
      - destruct (delete_checkpoint_found self _ cp E) as (b & a & Hs & _ & ->).
        cbn [snd with_history rollback_points]. rewrite Hs, !length_app. simpl. lia.
      - by rewrite (delete_checkpoint_not_found self _ E). }
    split; [ lia | done ].
  - assert (H : rollback_points (snd (fst (clear_history self w))) = []).
    { unfold clear_history. by destruct (deref w _). }
    destruct (clear_history self w) as [[r self'] w']. cbn [fst snd] in *.
    rewrite H. simpl. split; lia.
Qed.

End run_facts.

(** X12. Across any sequence of calls, [checkpoint_count] counts the
    checkpoints ever created, not the ones stored: its final value is its
    initial value plus the number of ids, the sentinel apart, that
    [create_checkpoint] handed out.  Deleting, clearing, evicting,
    restoring and importing never change it. *)
Theorem X12_checkpoint_count_counts_creations
    (cs : list call) (s : RollbackManager.t * world) :
  RollbackManager.checkpoint_count (fst (snd (run cs s)))
  = RollbackManager.checkpoint_count (fst s)
    + length (List.filter (fun i => negb (is_sentinel i)) (fst (run cs s))).
Proof.
  revert s. induction cs as [ | c cs IH ]; intros s; [ simpl; lia | ].
  cbn [run]. pose proof (step_count c s) as Hstep. specialize (IH (snd (step c s))).
  destruct (step c s) as [r s']. cbn [fst snd] in *.
  destruct (run cs s') as [ids s'']. cbn [fst snd] in *. rewrite IH, Hstep.
  destruct r as [ i | ]; [ | lia ].
  cbn [List.filter]. destruct (is_sentinel i); simpl; lia.
Qed.

(** X13. As long as nothing is imported, a history within the bound stays
    within it through any sequence of calls: with [auto_cleanup] on and
    [max_history] = K >= 0, if the history has at most K entries before
    the calls it has at most K entries after them. *)
Theorem X13_bound_kept_without_imports
    (cs : list call) (s : RollbackManager.t * world) :
  forallb not_import cs = true ->
  RollbackManager.auto_cleanup (fst s) = true ->
  (0 <= RollbackManager.max_history (fst s))%Z ->
  (Z.of_nat (length (RollbackManager.rollback_points (fst s)))
   <= RollbackManager.max_history (fst s))%Z ->
  (Z.of_nat (length (history_after cs s)) <= RollbackManager.max_history (fst s))%Z.
Proof.
  unfold history_after. revert s.
  induction cs as [ | c cs IH ]; intros s Hni Hac HK Hlen; [ done | ].
  cbn [forallb] in Hni. apply andb_true_iff in Hni as [Hc Hcs].
  cbn [run]. pose proof (step_config c s) as (_ & HK' & Hac'). 
  pose proof (proj1 (step_length c s Hc) Hac HK Hlen) as Hlen'.
  specialize (IH (snd (step c s)) Hcs).
  rewrite Hac', HK' in IH. specialize (IH Hac HK Hlen').
  destruct (step c s) as [r s']. cbn [fst snd] in *.
  destruct (run cs s') as [ids s'']. exact IH.
Qed.

Lemma X13_witness :
  (Z.of_nat (length (history_after examples.three_creates examples.double_store))
   <= RollbackManager.max_history (fst examples.double_store))%Z.
Proof.
  apply X13_bound_kept_without_imports.
  - reflexivity.
  - reflexivity.
  - vm_compute. discriminate.
  - vm_compute. discriminate.
Defined.

(** ** Ids generated by the manager *)

Section generated_facts.
Import RollbackManager.

Lemma ids_generated_init (cfg : config) (w : world) : ids_generated (fst (init cfg w)).
Proof. exists []. unfold init, alloc. simpl. repeat split; constructor. Qed.

Lemma ids_generated_ext (self self' : t) :
  rollback_points self' = rollback_points self ->
  checkpoint_count self' = checkpoint_count self ->
  ids_generated self -> ids_generated self'.
Proof. unfold ids_generated. by intros -> ->. Qed.

Lemma generated_later_differs (cp : RollbackPoint.t) (k : nat)
    (l : list RollbackPoint.t) (ks : list nat) :
  generated_at cp k -> Forall2 generated_at l ks -> Forall (lt k) ks ->
  forallb (fun c => negb (py_eqb (RollbackPoint.id cp) (RollbackPoint.id c))) l = true.
Proof.
  intros [now Hcp] H. induction H as [ | c k' l ks [now' Hc] _ IH ]; intros Hlt;
    [ done | ].
  inversion Hlt as [ | ? ? Hk Hks ]; subst. cbn [forallb].
  rewrite IH by done. rewrite andb_true_r, Hcp, Hc. cbn [py_eqb].
  apply negb_true_iff, String.eqb_neq. intros Heq.
  apply checkpoint_id_of_inj in Heq. lia.
Qed.

(** Ids generated at increasing counters are pairwise distinct strings. *)
Lemma ids_generated_distinct (self : t) :
  ids_generated self ->
  ids_distinct (rollback_points self) = true /\ string_ids (rollback_points self).
Proof.
  intros (ks & Hgen & Hsorted & _). revert Hsorted.
  induction Hgen as [ | cp k l ks Hcp Hrest IH ]; intros Hsorted.
  - split; [ done | constructor ].
  - apply StronglySorted_cons in Hsorted as [Hk Hsorted].
    destruct (IH Hsorted) as [Hd Hs]. split.
    + cbn [ids_distinct]. rewrite Hd, andb_true_r.
      by apply (generated_later_differs cp k l ks).
    + constructor; [ | done ]. destruct Hcp as [now ->]. eauto.
Qed.

Lemma create_checkpoint_ids_generated (self : t) (w : world)
    (now_id now_ts : datetime.t) (description : pyval) (state : addr)
    (metadata : option addr) :
  ids_generated self ->
  ids_generated (snd (fst (create_checkpoint self w now_id now_ts description state
                             metadata))).
Proof.
  intros Hgen. destruct (enabled self) eqn:He;
    [ | unfold create_checkpoint; by rewrite He ].
  destruct Hgen as (ks & Hgen & Hsorted & Hlt).
  destruct (create_checkpoint_points self w now_id now_ts description state metadata He)
    as (new & Hid & _ & _ & Hpts).
  destruct (create_checkpoint_enabled self w now_id now_ts description state metadata He)
    as (Hid' & _ & Hcount & _).
  assert (Hall : Forall2 generated_at (rollback_points self ++ [new])
                         (ks ++ [checkpoint_count self])).
  { apply Forall2_app; [ done | ]. repeat constructor.
    exists now_id. by rewrite Hid, Hid'. }
  assert (Hs : StronglySorted lt (ks ++ [checkpoint_count self])).
  { apply StronglySorted_app_2; [ | done | repeat constructor ].
    intros x y Hx Hy. apply list_elem_of_singleton in Hy as ->.
    rewrite Forall_forall in Hlt. by apply Hlt. }
  assert (Hb : Forall (fun c => c < S (checkpoint_count self))
                      (ks ++ [checkpoint_count self])).
  { apply Forall_app. split; [ | repeat constructor ].
    eapply Forall_impl; [ exact Hlt | ]. simpl. lia. }
  unfold ids_generated. rewrite Hpts, Hcount.
  destruct (_ && _).
  - exists (drop 1 (ks ++ [checkpoint_count self])).
    split; [ by apply Forall2_drop | ].
    split; [ | by apply Forall_drop ].
    destruct (ks ++ [checkpoint_count self]) as [ | k0 ks0 ]; [ constructor | ].
    simpl. rewrite drop_0. by apply StronglySorted_cons in Hs as [_ Hs].
  - by exists (ks ++ [checkpoint_count self]).
Qed.

Lemma delete_checkpoint_ids_generated (self : t) (i : pyval) :
  ids_generated self -> ids_generated (snd (delete_checkpoint self i)).
Proof.
  intros Hgen.
  destruct (find_checkpoint (rollback_points self) i) as [ cp | ] eqn:E;
    [ | by rewrite (delete_checkpoint_not_found self i E) ].
  destruct (delete_checkpoint_found self i cp E) as (before & after & Hs & _ & ->).
  destruct Hgen as (ks & Hgen & Hsorted & Hlt). rewrite Hs in Hgen.
  apply Forall2_app_inv_l in Hgen as (k1 & k2' & H1 & H2 & ->).
  apply Forall2_cons_inv_l in H2 as (k & k2 & _ & H2 & ->).
  exists (k1 ++ k2). cbn [snd with_history rollback_points checkpoint_count].
  split; [ by apply Forall2_app | ].
  apply StronglySorted_app in Hsorted as (Hcross & Hs1 & Hs2).
  apply StronglySorted_cons in Hs2 as [_ Hs2].
  apply Forall_app in Hlt as [Hlt1 Hlt2]. inversion Hlt2; subst.
  split; [ | by apply Forall_app ].
  apply StronglySorted_app_2; [ | done | done ].
  intros x y Hx Hy. apply Hcross; [ done | by apply list_elem_of_further ].
Qed.

(** A call that is not an import keeps the ids generated. *)
Lemma step_ids_generated (c : call) (s : t * world) :
  not_import c = true -> ids_generated (fst s) -> ids_generated (fst (snd (step c s))).
Proof.
  destruct s as [self w]. intros Hni Hgen. destruct c; try done; cbn [step fst snd] in *.
  - pose proof (create_checkpoint_ids_generated self w now_id now_ts description state
                  metadata Hgen) as H.
    by destruct (create_checkpoint self w now_id now_ts description state metadata)
      as [[r self'] w'].
  - pose proof (rollback_to_checkpoint_config self w checkpoint_id) as H. cbv zeta in H.
    pose proof (rollback_to_checkpoint_count self w checkpoint_id) as Hc.
    destruct (rollback_to_checkpoint self w checkpoint_id) as [[r self'] w'].
    cbn [fst snd] in *. apply (ids_generated_ext self); tauto.
  - pose proof (rollback_to_latest_config self w) as H. cbv zeta in H.
    pose proof (rollback_to_latest_count self w) as Hc.
    destruct (rollback_to_latest self w) as [[r self'] w'].
    cbn [fst snd] in *. apply (ids_generated_ext self); tauto.
  - pose proof (rollback_n_steps_config self w steps) as H. cbv zeta in H.
    pose proof (rollback_n_steps_count self w steps) as Hc.
    destruct (rollback_n_steps self w steps) as [[r self'] w'].
    cbn [fst snd] in *. apply (ids_generated_ext self); tauto.
  - by apply delete_checkpoint_ids_generated.
  - assert (H : ids_generated (snd (fst (clear_history self w)))).
    { unfold clear_history.
      destruct (deref w _); exists []; repeat split; constructor. }
    by destruct (clear_history self w) as [[r self'] w'].
Qed.

End generated_facts.

(** X14. As long as nothing is imported, the ids stored by a manager are
    ids it generated, at increasing counters: starting from a new manager
    (or from any state of that kind) and through any sequence of calls
    without an import, the stored ids are pairwise distinct strings.  So
    every lookup by a stored id finds the entry it belongs to. *)
Theorem X14_stored_ids_distinct_without_imports
    (cs : list call) (s : RollbackManager.t * world) :
  forallb not_import cs = true ->
  ids_generated (fst s) ->
  ids_generated (fst (snd (run cs s)))
  /\ ids_distinct (history_after cs s) = true
  /\ string_ids (history_after cs s)
  /\ forall cp, cp ∈ history_after cs s ->
       RollbackManager.find_checkpoint (history_after cs s) (RollbackPoint.id cp)
       = Some cp.
Proof.
  intros Hni Hgen.
  assert (H : ids_generated (fst (snd (run cs s)))).
  { revert s Hni Hgen. induction cs as [ | c cs IH ]; intros s Hni Hgen; [ done | ].
    cbn [forallb] in Hni. apply andb_true_iff in Hni as [Hc Hcs].
    cbn [run]. pose proof (step_ids_generated c s Hc Hgen) as Hgen'.
    specialize (IH (snd (step c s)) Hcs Hgen').
    destruct (step c s) as [r s']. cbn [fst snd] in *.
    by destruct (run cs s') as [ids s'']. }
  split; [ exact H | ].
  destruct (ids_generated_distinct _ H) as [Hd Hs]. unfold history_after.
  split; [ exact Hd | ]. split; [ exact Hs | ].
  intros cp Hin. by apply find_checkpoint_distinct.
Qed.

Lemma X14_witness :
  ids_distinct (history_after examples.three_creates examples.double_store) = true.
Proof.
  refine (proj1 (proj2 (X14_stored_ids_distinct_without_imports
                          examples.three_creates examples.double_store _ _))).
  - reflexivity.
  - exists []. repeat split; constructor.
Defined.

(** ** Retention *)

Section retention_facts.
Import RollbackManager.



End retention_facts.



(** ** Lookup, history and statistics *)

Section read_facts.
Import RollbackManager.
Import datetime_facts.




End read_facts.





(** X19. The timestamp text in the dict of an entry reads back: for an
    entry with a valid timestamp found by id, [get_checkpoint] returns a
    dict whose id and description are the entry's, whose state and
    metadata are the entry's own objects, and whose timestamp string
    [fromisoformat] parses to the entry's timestamp. *)
Theorem X19_lookup_dict_reads_back
    (self : RollbackManager.t) (i : pyval) (cp : RollbackPoint.t) :
  RollbackManager.find_checkpoint (RollbackManager.rollback_points self) i = Some cp ->
  datetime.valid (RollbackPoint.timestamp cp) = true ->
  exists d,
    RollbackManager.get_checkpoint self i = Some d
    /\ py_eqb (RollbackPoint.d_id d) i = true
    /\ RollbackPoint.d_id d = RollbackPoint.id cp
    /\ RollbackPoint.d_description d = RollbackPoint.description cp
    /\ RollbackPoint.d_state_snapshot d = RollbackPoint.state_snapshot cp
    /\ RollbackPoint.d_metadata d = RollbackPoint.metadata cp
    /\ datetime.fromisoformat (RollbackPoint.d_timestamp d)
       = Some (RollbackPoint.timestamp cp).
Proof.
  intros Hf Hv. exists (RollbackPoint.to_dict cp).
  unfold RollbackManager.get_checkpoint. rewrite Hf.
  apply find_checkpoint_elem in Hf as [_ Hm].
  repeat split; try done.
  by apply datetime_facts.fromisoformat_isoformat.
Qed.

Lemma X19_witness :
  exists d,
    RollbackManager.get_checkpoint (snd (fst examples.tick_first))
                                   (fst (fst examples.tick_first)) = Some d
    /\ py_eqb (RollbackPoint.d_id d) (fst (fst examples.tick_first)) = true
    /\ RollbackPoint.d_id d = RollbackPoint.id (examples.first_entry "init")
    /\ RollbackPoint.d_description d
       = RollbackPoint.description (examples.first_entry "init")
    /\ RollbackPoint.d_state_snapshot d
       = RollbackPoint.state_snapshot (examples.first_entry "init")
    /\ RollbackPoint.d_metadata d = RollbackPoint.metadata (examples.first_entry "init")
    /\ datetime.fromisoformat (RollbackPoint.d_timestamp d)
       = Some (RollbackPoint.timestamp (examples.first_entry "init")).
Proof.
  apply (X19_lookup_dict_reads_back (snd (fst examples.tick_first))).
  - vm_compute. reflexivity.
  - vm_compute. reflexivity.
Defined.

(** ** The latest checkpoint *)

Section latest_facts.
Import RollbackManager.
Import datetime_facts.



End latest_facts.


